(** * Announcements module of Course Builder: model and verified properties

    Source: [coursebuilder/modules/announcements/announcements.py].

    The module is a thin controller over the App Engine datastore.  The
    handlers are embedded as functions in a small state-and-exception monad
    over the datastore; the collaborators that live outside the file (the
    JSON library, datastore key encoding, URL helpers, the object editor and
    the sample data) are the fields of the [Platform] interface. *)

From Stdlib Require Import ZArith String Ascii DecimalString.
From stdpp Require Import gmap strings list sorting.

Local Open Scope string_scope.

(** ** Data model *)

(** [datetime.date]: a calendar date without time of day. *)
Record Date := mkDate { year : N; month : N; day : N }.

Global Instance Date_eq_dec : EqDecision Date.
Proof. solve_decision. Defined.

(** [class AnnouncementEntity(db.Model)]: the four declared properties. *)
Record AnnouncementEntity := mkAnnouncement {
  title : string;      (* db.StringProperty() *)
  date : Date;         (* db.DateProperty() *)
  html : string;       (* db.TextProperty() *)
  is_draft : bool      (* db.BooleanProperty() *)
}.

Global Instance AnnouncementEntity_eq_dec : EqDecision AnnouncementEntity.
Proof. solve_decision. Defined.

(** Datastore keys are the numeric ids the datastore assigns; a stored
    entity is handled together with its key, as [entity.key()] gives it. *)
Definition Key := positive.
Definition Item : Type := Key * AnnouncementEntity.

(** Python values that travel through the handlers: JSON values, plus dates
    (which only occur in dictionaries built from entities). *)
#[warnings="-register-all"]
Inductive Val :=
| VNone
| VBool (b : bool)
| VNum (n : Z)
| VStr (s : string)
| VDate (d : Date)
| VList (l : list Val)
| VDict (l : list (string * Val)).

(** Python truth value, as tested by [if x:] and [not x]. *)
Definition truthy (v : Val) : bool :=
  match v with
  | VNone => false
  | VBool b => b
  | VNum n => negb (n =? 0)%Z
  | VStr s => negb (String.eqb s "")
  | VDate _ => true
  | VList l => match l with [] => false | _ => true end
  | VDict l => match l with [] => false | _ => true end
  end.

(** Dictionaries are kept as association lists; [d[k] = v] replaces the
    binding of an existing key and appends a new one otherwise. *)
Fixpoint dict_get (k : string) (d : list (string * Val)) : option Val :=
  match d with
  | [] => None
  | (k', v) :: d' => if String.eqb k k' then Some v else dict_get k d'
  end.

Fixpoint dict_set (k : string) (v : Val) (d : list (string * Val))
  : list (string * Val) :=
  match d with
  | [] => [(k, v)]
  | (k', v') :: d' =>
      if String.eqb k k' then (k, v) :: d' else (k', v') :: dict_set k v d'
  end.

(** [d.get(k)]: [None] when the key is absent. *)
Definition dict_get_default (k : string) (d : list (string * Val)) : Val :=
  default VNone (dict_get k d).

(** ** Rights *)

(** What the hosting environment knows about the request's viewer. *)
Record Session := mkSession {
  current_user : option string;      (* e-mail of the signed-in user *)
  is_current_user_admin : bool;      (* users.is_current_user_admin() *)
  enrolled : bool;                   (* Student.get_enrolled_student_by_email *)
  today : Date                       (* datetime.datetime.now().date() *)
}.

Module AnnouncementsRights.
Definition can_view (s : Session) : bool := true.
Definition can_edit (s : Session) : bool := is_current_user_admin s.
Definition can_delete (s : Session) : bool := can_edit s.
Definition can_add (s : Session) : bool := can_edit s.
End AnnouncementsRights.

(** [AnnouncementsHandler.apply_rights]: the loop appends, in order, every
    item that is not a draft. *)
Fixpoint allowed_items (items : list Item) : list Item :=
  match items with
  | [] => []
  | item :: rest =>
      if negb (is_draft item.2) then item :: allowed_items rest
      else allowed_items rest
  end.

Definition apply_rights (s : Session) (items : list Item) : list Item :=
  if AnnouncementsRights.can_edit s then items else allowed_items items.

(** ** Dates on the wire

    Modelled from the spec: the date conversion of [transforms] is not in the
    source file.  The REST payload carries a date as the ten characters [YYYY-MM-DD]
    (the form used by the specification's example, ["2020-01-01"]). *)

Definition digit_char (n : N) : ascii := ascii_of_N (48 + n).

Definition digit_val (c : ascii) : option N :=
  let n := N_of_ascii c in
  if (48 <=? n)%N && (n <=? 57)%N then Some (n - 48)%N else None.

Definition is_leap (y : N) : bool :=
  ((y mod 4 =? 0) && negb (y mod 100 =? 0) || (y mod 400 =? 0))%N.

Definition days_in_month (y m : N) : N :=
  match m with
  | 1 | 3 | 5 | 7 | 8 | 10 | 12 => 31
  | 4 | 6 | 9 | 11 => 30
  | 2 => if is_leap y then 29 else 28
  | _ => 0
  end%N.

(** The dates [datetime.date] can hold: years 1 to 9999. *)
Definition valid_date (d : Date) : bool :=
  ((1 <=? year d) && (year d <=? 9999) && (1 <=? month d) && (month d <=? 12)
   && (1 <=? day d) && (day d <=? days_in_month (year d) (month d)))%N.

Definition format_date (d : Date) : string :=
  let y := year d in let m := month d in let a := day d in
  String (digit_char (y / 1000 mod 10)) (String (digit_char (y / 100 mod 10))
  (String (digit_char (y / 10 mod 10)) (String (digit_char (y mod 10))
  (String "-" (String (digit_char (m / 10 mod 10)) (String (digit_char (m mod 10))
  (String "-" (String (digit_char (a / 10 mod 10)) (String (digit_char (a mod 10))
  EmptyString)))))))))%N.

Definition parse_date (s : string) : option Date :=
  match s with
  | String y1 (String y2 (String y3 (String y4 (String "-"
      (String m1 (String m2 (String "-" (String d1 (String d2 EmptyString))))))))) =>
      y1 ← digit_val y1; y2 ← digit_val y2; y3 ← digit_val y3; y4 ← digit_val y4;
      m1 ← digit_val m1; m2 ← digit_val m2; d1 ← digit_val d1; d2 ← digit_val d2;
      let d := mkDate (1000 * y1 + 100 * y2 + 10 * y3 + y4)
                      (10 * m1 + m2) (10 * d1 + d2) in
      if valid_date d then Some d else None
  | _ => None
  end%N.

(** Order of dates, as compared by the datastore index. *)
Definition date_leb (a b : Date) : bool :=
  ((year a <? year b)
   || ((year a =? year b)
       && ((month a <? month b)
           || ((month a =? month b) && (day a <=? day b)))))%N.

(** ** Exceptions, the datastore and the handler monad *)

Inductive Exn :=
| ValueError          (* json.loads on text that is not JSON *)
| TypeError           (* json.loads on a value that is not a string *)
| AttributeError      (* .get on a value that is not a dict *)
| BadKeyError         (* db: the string is not an encoded key *)
| BadArgumentError.   (* db: the argument is not a key at all *)

Global Instance Exn_eq_dec : EqDecision Exn.
Proof. solve_decision. Defined.

Inductive Result (A : Type) :=
| Ok (a : A)
| Raise (e : Exn).
Arguments Ok {A} a.
Arguments Raise {A} e.

(** Calls that reach the announcement table. *)
Inductive DbCall :=
| DbGet (k : Key)
| DbPut (k : Key)
| DbDelete (k : Key)
| DbQuery.

Record Datastore := mkDatastore {
  rows : gmap Key AnnouncementEntity;
  calls : list DbCall                   (* in the order they were made *)
}.

(** A handler step reads and writes the datastore and either returns or
    raises; what was written before an exception stays written. *)
Definition Action (A : Type) : Type := Datastore -> Result A * Datastore.

Definition ret {A} (a : A) : Action A := fun ds => (Ok a, ds).
Definition raise {A} (e : Exn) : Action A := fun ds => (Raise e, ds).
Definition bind {A B} (m : Action A) (f : A -> Action B) : Action B :=
  fun ds =>
    match m ds with
    | (Ok a, ds') => f a ds'
    | (Raise e, ds') => (Raise e, ds')
    end.

(** [try: m  except e: handler] *)
Definition try_except {A} (m : Action A) (e : Exn) (handler : Action A)
  : Action A :=
  fun ds =>
    match m ds with
    | (Raise e', ds') =>
        if decide (e' = e) then handler ds' else (Raise e', ds')
    | r => r
    end.

Declare Scope action_scope.
Delimit Scope action_scope with action.
Notation "x <~ m ;; k" := (bind m (fun x => k))
  (at level 100, m at next level, right associativity) : action_scope.
Notation "m ;;; k" := (bind m (fun _ => k))
  (at level 100, right associativity) : action_scope.

Local Open Scope action_scope.

(** ** Collaborators outside the module

    The standard library's [json] and [urllib], the datastore's key codec and
    id allocator, [BaseHandler.canonicalize_url], [users.create_login_url],
    [ObjectEditor.get_html_for] and the constants of [samples] and [schema]
    that the handlers only pass along. *)
Class Platform := {
  json_dumps : Val -> string;
  json_loads : string -> option Val;          (* [None]: raises ValueError *)
  decode_key : string -> option Key;          (* [None]: raises BadKeyError *)
  encode_key : Key -> string;                 (* [str(entity.key())] *)
  alloc_key : gmap Key AnnouncementEntity -> Key;
  urlencode : list (string * string) -> string;
  url_quote : string -> string;
  canonicalize_url : string -> string;
  create_login_url : string -> string;
  get_html_for : string -> Val -> string -> string -> string -> string;
  SCHEMA_JSON : string;
  SCHEMA_ANNOTATIONS_DICT : Val;
  (* each sample gives the four attributes of the entity built from it *)
  SAMPLE_ANNOUNCEMENTS : list AnnouncementEntity
}.

(** An incoming request: query or form arguments, and its URI. *)
Record Request := mkRequest {
  params : gmap string string;
  uri : string
}.

(** [self.request.get(name)]: the empty string when the argument is absent. *)
Definition request_get (r : Request) (name : string) : string :=
  default "" (params r !! name).

(** What a handler leaves in the response. *)
Inductive Response :=
| RespError (code : Z)                                   (* self.error(code) *)
| RespRedirect (url : string)                            (* self.redirect(url) *)
| RespWrite (body : string)                              (* response.write(body) *)
| RespRender (template : string) (template_value : list (string * Val)).

(** The [key] argument of [get_action_url]: absent, a string, or a key
    object. *)
Inductive KeyArg :=
| NoKey
| KeyStr (s : string)
| KeyObj (k : Key).

Section Model.
Context {P : Platform}.

(** *** Datastore operations *)

Definition record_call (c : DbCall) : Action unit :=
  fun ds => (Ok tt, mkDatastore (rows ds) (calls ds ++ [c])).

(** [AnnouncementEntity.get(key)] for one key: a string is decoded first
    (malformed: BadKeyError), then looked up; [None] when no entity has the
    key.  Request arguments are always strings; a JSON request can also carry
    a key that is not a string, which is modelled as refused by the datastore
    (a JSON list, which the datastore would read as a batch of keys, is not
    modelled apart). *)
Definition AnnouncementEntity_get (key : Val) : Action (option Item) :=
  match key with
  | VStr encoded =>
      match decode_key encoded with
      | None => raise BadKeyError
      | Some k =>
          record_call (DbGet k) ;;;
          fun ds => (Ok (pair k <$> rows ds !! k), ds)
      end
  | _ => raise BadArgumentError
  end.

(** [entity.put()] on an entity that has no key yet. *)
Definition put_new (e : AnnouncementEntity) : Action Key :=
  fun ds =>
    let k := alloc_key (rows ds) in
    (Ok k, mkDatastore (<[k := e]> (rows ds)) (calls ds ++ [DbPut k])).

(** [entity.put()] on an entity read from the datastore. *)
Definition put_existing (k : Key) (e : AnnouncementEntity) : Action unit :=
  fun ds => (Ok tt, mkDatastore (<[k := e]> (rows ds)) (calls ds ++ [DbPut k])).

(** [entity.delete()] *)
Definition entity_delete (k : Key) : Action unit :=
  fun ds => (Ok tt, mkDatastore (delete k (rows ds)) (calls ds ++ [DbDelete k])).

(** The order of [order('-date')]: later dates first. *)
Definition date_desc (a b : Item) : Prop := date_leb (date b.2) (date a.2) = true.

Global Instance date_desc_dec (a b : Item) : Decision (date_desc a b).
Proof. unfold date_desc. apply _. Defined.

(** [AnnouncementEntity.all().order('-date').fetch(limit)] *)
Definition fetch_by_date_desc (limit : nat) : Action (list Item) :=
  record_call DbQuery ;;;
  fun ds => (Ok (take limit (merge_sort date_desc (map_to_list (rows ds)))), ds).

(** *** URLs *)

Definition key_arg_truthy (key : KeyArg) : bool :=
  match key with
  | NoKey => false
  | KeyStr s => negb (String.eqb s "")
  | KeyObj _ => true
  end.

Definition key_arg_str (key : KeyArg) : string :=
  match key with
  | NoKey => "None"
  | KeyStr s => s
  | KeyObj k => encode_key k
  end.

(** [AnnouncementsHandler.get_action_url] *)
Definition get_action_url (action : string) (key : KeyArg) : string :=
  let args := [("action", action)] in
  let args := if key_arg_truthy key
              then (args ++ [("key", key_arg_str key)])%list else args in
  canonicalize_url ("/announcements?" ++ urlencode args).

(** *** Transforms and schema *)

Inductive PropertyType := TString | TDate | TText | TBoolean.

(** Modelled from the spec: [schema.SCHEMA_DICT] is not in the source file.
    The specification gives the REST payload as the four fields
    [{title, date, html, isDraft}]; the schema lists them with their types. *)
Definition SCHEMA_DICT : list (string * PropertyType) :=
  [("title", TString); ("date", TDate); ("html", TText); ("isDraft", TBoolean)].

(** Modelled from the spec: [transforms.entity_to_dict] is not in the source
    file.  The record as a dictionary: its key (which
    [format_items_for_template] reads as [item['key']]) and its fields. *)
Definition entity_to_dict (it : Item) : list (string * Val) :=
  [("key", VStr (encode_key it.1));
   ("title", VStr (title it.2));
   ("date", VDate (date it.2));
   ("html", VStr (html it.2));
   ("isDraft", VBool (is_draft it.2))].

Definition to_json_value (t : PropertyType) (v : Val) : Val :=
  match t, v with
  | TDate, VDate d => VStr (format_date d)
  | _, _ => v
  end.

(** Modelled from the spec: [transforms.dict_to_json] is not in the source
    file.  "Record as JSON per schema": the schema's fields, in schema order,
    dates written as text; everything outside the schema is dropped. *)
Fixpoint dict_to_json (d : list (string * Val))
    (schema : list (string * PropertyType)) : list (string * Val) :=
  match schema with
  | [] => []
  | (name, t) :: schema' =>
      match dict_get name d with
      | Some v => (name, to_json_value t v) :: dict_to_json d schema'
      | None => dict_to_json d schema'
      end
  end.

Definition from_json_value (t : PropertyType) (v : Val) : option Val :=
  match t, v with
  | TString, VStr s => Some (VStr s)
  | TText, VStr s => Some (VStr s)
  | TBoolean, VBool b => Some (VBool b)
  | TDate, VStr s => VDate <$> parse_date s
  | _, _ => None
  end.

Fixpoint json_fields_to_dict (j : list (string * Val))
    (schema : list (string * PropertyType)) : option (list (string * Val)) :=
  match schema with
  | [] => Some []
  | (name, t) :: schema' =>
      match dict_get name j with
      | Some v =>
          v' ← from_json_value t v;
          rest ← json_fields_to_dict j schema';
          Some ((name, v') :: rest)
      | None => json_fields_to_dict j schema'
      end
  end.

(** Modelled from the spec: [transforms.json_to_dict] is not in the source
    file.  The incoming fields that the schema names, converted to the
    schema's types; a field of the wrong type, or input that is not a JSON
    object, is malformed input and raises. *)
Definition json_to_dict (j : Val) (schema : list (string * PropertyType))
  : Result (list (string * Val)) :=
  match j with
  | VDict fields =>
      match json_fields_to_dict fields schema with
      | Some d => Ok d
      | None => Raise ValueError
      end
  | _ => Raise ValueError
  end.

(** Modelled from the spec: [transforms.dict_to_entity] is not in the source
    file.  "Applies the incoming fields onto the existing record": each field
    the dictionary holds replaces the record's, the others stay. *)
Definition dict_to_entity (e : AnnouncementEntity) (d : list (string * Val))
  : AnnouncementEntity :=
  {| title := match dict_get "title" d with Some (VStr s) => s | _ => title e end;
     date := match dict_get "date" d with Some (VDate x) => x | _ => date e end;
     html := match dict_get "html" d with Some (VStr s) => s | _ => html e end;
     is_draft := match dict_get "isDraft" d with
                 | Some (VBool b) => b
                 | _ => is_draft e
                 end |}.

Definition lift_result {A} (r : Result A) : Action A := fun ds => (r, ds).

(** *** AnnouncementsHandler *)

Definition default_action : string := "list".
Definition get_actions : list string := [default_action; "edit"].
Definition post_actions : list string := ["add"; "delete"].

(** [format_items_for_template] *)
Definition format_item (s : Session) (it : Item) : Val :=
  let item := entity_to_dict it in
  let item :=
    if AnnouncementsRights.can_edit s then
      let key := match dict_get_default "key" item with
                 | VStr k => KeyStr k
                 | _ => NoKey
                 end in
      let item := dict_set "edit_action" (VStr (get_action_url "edit" key)) item in
      dict_set "delete_action" (VStr (get_action_url "delete" key)) item
    else item in
  VDict item.

Definition format_items_for_template (s : Session) (items : list Item) : Val :=
  let template_items := format_item s <$> items in
  let output := [("children", VList template_items)] in
  let output :=
    if AnnouncementsRights.can_edit s
    then dict_set "add_action" (VStr (get_action_url "add" NoKey)) output
    else output in
  VDict output.

(** [put_sample_announcements]: one new entity per sample, stored in the
    order of the samples. *)
Fixpoint put_samples (samples : list AnnouncementEntity) : Action (list Item) :=
  match samples with
  | [] => ret []
  | item :: rest =>
      k <~ put_new item ;;
      items <~ put_samples rest ;;
      ret ((k, item) :: items)
  end.

Definition put_sample_announcements : Action (list Item) :=
  put_samples SAMPLE_ANNOUNCEMENTS.

Definition get_list (s : Session) (r : Request) : Action Response :=
  match current_user s with
  | None => ret (RespRedirect (create_login_url (uri r)))
  | Some email =>
      if negb (enrolled s) then ret (RespRedirect "/preview")
      else
        items <~ fetch_by_date_desc 1000 ;;
        items <~ (match items with
                  | [] => put_sample_announcements
                  | _ => ret items
                  end) ;;
        ret (RespRender "announcements.html"
               [("announcements",
                 format_items_for_template s (apply_rights s items));
                ("navbar", VDict [("announcements", VBool true)])])
  end.

Definition get_edit (s : Session) (r : Request) : Action Response :=
  if negb (AnnouncementsRights.can_edit s) then ret (RespError 401)
  else
    let key := request_get r "key" in
    let exit_url := canonicalize_url ("/announcements#" ++ url_quote key) in
    let rest_url := canonicalize_url "/rest/announcements/item" in
    let form_html :=
      get_html_for SCHEMA_JSON SCHEMA_ANNOTATIONS_DICT key rest_url exit_url in
    ret (RespRender "bare.html"
           [("navbar", VDict [("announcements", VBool true)]);
            ("content", VStr form_html)]).

Definition post_delete (s : Session) (r : Request) : Action Response :=
  if negb (AnnouncementsRights.can_delete s) then ret (RespError 401)
  else
    let key := request_get r "key" in
    entity <~ AnnouncementEntity_get (VStr key) ;;
    (match entity with
     | Some (k, _) => entity_delete k
     | None => ret tt
     end) ;;;
    ret (RespRedirect "/announcements").

Definition post_add (s : Session) (r : Request) : Action Response :=
  if negb (AnnouncementsRights.can_add s) then ret (RespError 401)
  else
    let entity :=
      {| title := "Sample Announcement";
         date := today s;
         html := "Here is my announcement!";
         is_draft := true |} in
    k <~ put_new entity ;;
    ret (RespRedirect (get_action_url "edit" (KeyObj k))).

(** The page [get_list] renders for the items it has in hand. *)
Definition list_page (s : Session) (items : list Item) : Response :=
  RespRender "announcements.html"
    [("announcements", format_items_for_template s (apply_rights s items));
     ("navbar", VDict [("announcements", VBool true)])].

(** [getattr(self, name)] over the action methods of the handler. *)
Definition getattr_handler (name : string)
  : option (Session -> Request -> Action Response) :=
  if String.eqb name "get_list" then Some get_list
  else if String.eqb name "get_edit" then Some get_edit
  else if String.eqb name "post_add" then Some post_add
  else if String.eqb name "post_delete" then Some post_delete
  else None.

Definition dispatch (name : string) (s : Session) (r : Request)
  : Action Response :=
  match getattr_handler name with
  | Some handler => handler s r
  | None => raise AttributeError
  end.

(** [AnnouncementsHandler.get] *)
Definition AnnouncementsHandler_get (s : Session) (r : Request)
  : Action Response :=
  let action := request_get r "action" in
  let action := if String.eqb action "" then default_action else action in
  if negb (bool_decide (action ∈ get_actions)) then ret (RespError 404)
  else dispatch ("get_" ++ action) s r.

(** [AnnouncementsHandler.post] *)
Definition AnnouncementsHandler_post (s : Session) (r : Request)
  : Action Response :=
  let action := request_get r "action" in
  if String.eqb action "" || negb (bool_decide (action ∈ post_actions))
  then ret (RespError 404)
  else dispatch ("post_" ++ action) s r.

(** *** REST *)

(** The dictionary that [send_json_response] serializes. *)
Definition json_envelope (status_code : Z) (message : string)
    (payload_dict : Val) : list (string * Val) :=
  let response := [("status", VNum status_code); ("message", VStr message)] in
  if truthy payload_dict
  then dict_set "payload" (VStr (json_dumps payload_dict)) response
  else response.

(** [send_json_response]: the text written to the response. *)
Definition send_json_response (status_code : Z) (message : string)
    (payload_dict : Val) : string :=
  json_dumps (VDict (json_envelope status_code message payload_dict)).

(** [ItemRESTHandler.get] *)
Definition ItemRESTHandler_get (s : Session) (r : Request) : Action Response :=
  let key := request_get r "key" in
  entity <~ try_except (AnnouncementEntity_get (VStr key)) BadKeyError (ret None) ;;
  match entity with
  | None =>
      ret (RespWrite (send_json_response 404 "Object not found."
                        (VDict [("key", VStr key)])))
  | Some it =>
      let json_payload := dict_to_json (entity_to_dict it) SCHEMA_DICT in
      ret (RespWrite (send_json_response 200 "Success." (VDict json_payload)))
  end.

(** [json.loads(x)] on a Python value. *)
Definition py_json_loads (x : Val) : Action Val :=
  match x with
  | VStr text =>
      match json_loads text with
      | Some v => ret v
      | None => raise ValueError
      end
  | _ => raise TypeError
  end.

(** [x.get(name)], which only dictionaries have. *)
Definition py_get (x : Val) (name : string) : Action Val :=
  match x with
  | VDict d => ret (dict_get_default name d)
  | _ => raise AttributeError
  end.

(** [ItemRESTHandler.put] *)
Definition ItemRESTHandler_put (s : Session) (r : Request) : Action Response :=
  request <~ py_json_loads (VStr (request_get r "request")) ;;
  key <~ py_get request "key" ;;
  if negb (AnnouncementsRights.can_edit s) then
    ret (RespWrite (send_json_response 401 "Access denied."
                      (VDict [("key", key)])))
  else
    entity <~ AnnouncementEntity_get key ;;
    match entity with
    | None =>
        ret (RespWrite (send_json_response 404 "Object not found."
                          (VDict [("key", key)])))
    | Some (k, e) =>
        payload <~ py_get request "payload" ;;
        decoded <~ py_json_loads payload ;;
        fields <~ lift_result (json_to_dict decoded SCHEMA_DICT) ;;
        put_existing k (dict_to_entity e fields) ;;;
        ret (RespWrite (send_json_response 200 "Saved." VNone))
    end.

(** The envelope in the specification's words:
    [{status, message, payload}], the payload being the JSON text of a
    dictionary, and [{status, message}] when there is no payload. *)
Definition envelope_with_payload (status : Z) (message : string)
    (payload : list (string * Val)) : Val :=
  VDict [("status", VNum status); ("message", VStr message);
         ("payload", VStr (json_dumps (VDict payload)))].

Definition envelope_without_payload (status : Z) (message : string) : Val :=
  VDict [("status", VNum status); ("message", VStr message)].

(** The record's fields as the REST payload lists them. *)
Definition payload_fields (e : AnnouncementEntity) : list (string * Val) :=
  [("title", VStr (title e)); ("date", VStr (format_date (date e)));
   ("html", VStr (html e)); ("isDraft", VBool (is_draft e))].

End Model.

(** ** A reference platform

    A concrete instance of the interface, used to run the handlers on
    concrete requests: a small JSON codec, decimal key strings, the least
    unused id as allocator, and plain URL helpers. *)
Module Reference.

Definition dquote : ascii := ascii_of_N 34.
Definition backslash : ascii := ascii_of_N 92.

Fixpoint escape (s : string) : string :=
  match s with
  | EmptyString => EmptyString
  | String c rest =>
      if Ascii.eqb c dquote || Ascii.eqb c backslash
      then String backslash (String c (escape rest))
      else String c (escape rest)
  end.

Definition quoted (s : string) : string :=
  String dquote (escape s ++ String dquote EmptyString).

Definition Z_to_string (n : Z) : string :=
  DecimalString.NilZero.string_of_int (Z.to_int n).

(** [json.dumps] with the default separators; a date, which [json] cannot
    serialize, is written as its quoted text. *)
Fixpoint dumps (v : Val) : string :=
  match v with
  | VNone => "null"
  | VBool true => "true"
  | VBool false => "false"
  | VNum n => Z_to_string n
  | VStr s => quoted s
  | VDate d => quoted (format_date d)
  | VList l =>
      "[" ++ (fix elements (l : list Val) : string :=
                match l with
                | [] => ""
                | [x] => dumps x
                | x :: rest => dumps x ++ ", " ++ elements rest
                end) l ++ "]"
  | VDict d =>
      "{" ++ (fix members (d : list (string * Val)) : string :=
                match d with
                | [] => ""
                | [(k, x)] => quoted k ++ ": " ++ dumps x
                | (k, x) :: rest =>
                    quoted k ++ ": " ++ dumps x ++ ", " ++ members rest
                end) d ++ "}"
  end.

Definition is_ws (c : ascii) : bool :=
  let n := N_of_ascii c in
  (n =? 32)%N || (n =? 9)%N || (n =? 10)%N || (n =? 13)%N.

Fixpoint skip_ws (s : string) : string :=
  match s with
  | String c rest => if is_ws c then skip_ws rest else s
  | EmptyString => EmptyString
  end.

(** The text after [prefix], when [s] starts with it. *)
Fixpoint expect (prefix s : string) : option string :=
  match prefix, s with
  | EmptyString, _ => Some s
  | String a p, String b rest => if Ascii.eqb a b then expect p rest else None
  | _, _ => None
  end.

(** The body of a string literal, up to its closing quote. *)
Fixpoint string_body (s : string) : option (string * string) :=
  match s with
  | EmptyString => None
  | String c rest =>
      if Ascii.eqb c dquote then Some (EmptyString, rest)
      else if Ascii.eqb c backslash then
        match rest with
        | String e rest' =>
            if Ascii.eqb e dquote || Ascii.eqb e backslash then
              '(body, tail) ← string_body rest'; Some (String e body, tail)
            else None
        | EmptyString => None
        end
      else '(body, tail) ← string_body rest; Some (String c body, tail)
  end.

Fixpoint digits (s : string) (acc : N) : N * string :=
  match s with
  | String c rest =>
      match digit_val c with
      | Some n => digits rest (10 * acc + n)%N
      | None => (acc, s)
      end
  | EmptyString => (acc, s)
  end.

Definition is_digit (c : ascii) : bool :=
  match digit_val c with Some _ => true | None => false end.

Definition number (s : string) : option (Z * string) :=
  match s with
  | String "-" (String c rest) =>
      if is_digit c then
        let '(n, tail) := digits (String c rest) 0 in Some (- Z.of_N n, tail)%Z
      else None
  | String c _ =>
      if is_digit c then
        let '(n, tail) := digits s 0 in Some (Z.of_N n, tail)
      else None
  | EmptyString => None
  end.

Fixpoint value (fuel : nat) (s : string) : option (Val * string) :=
  match fuel with
  | O => None
  | S fuel =>
      match skip_ws s with
      | EmptyString => None
      | String c rest as s' =>
          if Ascii.eqb c dquote then
            '(body, tail) ← string_body rest; Some (VStr body, tail)
          else if Ascii.eqb c "[" then
            match skip_ws rest with
            | String "]" tail => Some (VList [], tail)
            | rest' => '(l, tail) ← elements fuel rest'; Some (VList l, tail)
            end
          else if Ascii.eqb c "{" then
            match skip_ws rest with
            | String "}" tail => Some (VDict [], tail)
            | rest' => '(d, tail) ← members fuel rest'; Some (VDict d, tail)
            end
          else if Ascii.eqb c "n" then tail ← expect "ull" rest; Some (VNone, tail)
          else if Ascii.eqb c "t" then
            tail ← expect "rue" rest; Some (VBool true, tail)
          else if Ascii.eqb c "f" then
            tail ← expect "alse" rest; Some (VBool false, tail)
          else '(n, tail) ← number s'; Some (VNum n, tail)
      end
  end
with elements (fuel : nat) (s : string) : option (list Val * string) :=
  match fuel with
  | O => None
  | S fuel =>
      '(x, tail) ← value fuel s;
      match skip_ws tail with
      | String "," tail' => '(l, tail'') ← elements fuel tail'; Some (x :: l, tail'')
      | String "]" tail' => Some ([x], tail')
      | _ => None
      end
  end
with members (fuel : nat) (s : string) : option (list (string * Val) * string) :=
  match fuel with
  | O => None
  | S fuel =>
      match skip_ws s with
      | String c rest =>
          if Ascii.eqb c dquote then
            '(k, tail) ← string_body rest;
            match skip_ws tail with
            | String ":" tail' =>
                '(x, tail'') ← value fuel tail';
                match skip_ws tail'' with
                | String "," t => '(d, t') ← members fuel t; Some ((k, x) :: d, t')
                | String "}" t => Some ([(k, x)], t)
                | _ => None
                end
            | _ => None
            end
          else None
      | EmptyString => None
      end
  end.

(** [json.loads]: one value, then nothing but white space. *)
Definition loads (s : string) : option Val :=
  '(v, tail) ← value (S (String.length s)) s;
  match skip_ws tail with
  | EmptyString => Some v
  | _ => None
  end.

Definition key_to_string (k : Key) : string :=
  DecimalString.NilZero.string_of_uint (Pos.to_uint k).

Definition key_of_string (s : string) : option Key :=
  match s with
  | EmptyString => None
  | _ =>
      match digits s 0 with
      | (Npos k, EmptyString) => Some k
      | _ => None
      end
  end.

Fixpoint query_string (args : list (string * string)) : string :=
  match args with
  | [] => ""
  | [(k, v)] => k ++ "=" ++ v
  | (k, v) :: rest => k ++ "=" ++ v ++ "&" ++ query_string rest
  end.

Definition samples : list AnnouncementEntity :=
  [ mkAnnouncement "Example Announcement" (mkDate 2012 10 6)
      "Certificates will be e-mailed." false;
    mkAnnouncement "Welcome to Class 6 and the Post-class Assessment"
      (mkDate 2012 10 5) "Welcome to the final class!" true ].

Definition platform : Platform := {|
  json_dumps := dumps;
  json_loads := loads;
  decode_key := key_of_string;
  encode_key := key_to_string;
  alloc_key := fun m => fresh (dom m);
  urlencode := query_string;
  url_quote := fun s => s;
  canonicalize_url := fun s => s;
  create_login_url := fun u => "/login?continue=" ++ u;
  get_html_for := fun schema annotations key rest_url exit_url =>
    "<form action='" ++ rest_url ++ "' data-key='" ++ key ++ "'/>";
  SCHEMA_JSON := "{}";
  SCHEMA_ANNOTATIONS_DICT := VDict [];
  SAMPLE_ANNOUNCEMENTS := samples
|}.

(** Viewers and requests for the examples. *)
Definition admin : Session :=
  mkSession (Some "admin@example.com") true true (mkDate 2012 10 7).
Definition student : Session :=
  mkSession (Some "student@example.com") false true (mkDate 2012 10 7).

Definition request_of (args : list (string * string)) : Request :=
  mkRequest (list_to_map args) "/announcements".

Definition empty_store : Datastore := mkDatastore ∅ [].

(** A PUT request for the record 1, written by the reference codec. *)
Definition written_fields : list (string * Val) :=
  [("title", VStr "X"); ("date", VStr "2020-01-01"); ("html", VStr "Y");
   ("isDraft", VBool false)].

Definition put_request_text : string :=
  dumps (VDict [("key", VStr "1");
                ("payload", VStr (dumps (VDict written_fields)))]).

Definition two_items : list Item := zip [1%positive; 2%positive] samples.

(** A store holding the two samples under the ids 1 and 2. *)
Definition seeded_store : Datastore :=
  mkDatastore (list_to_map (zip [1%positive; 2%positive] samples)) [].

End Reference.

(** More viewers and requests for the examples. *)
Module Visitors.

(** Nobody is signed in. *)
Definition anonymous : Session :=
  mkSession None false false (mkDate 2012 10 7).

(** Signed in, but not enrolled as a student. *)
Definition unenrolled : Session :=
  mkSession (Some "guest@example.com") false false (mkDate 2012 10 7).

(** A PUT request whose key is not an encoded datastore key. *)
Definition bad_key_request_text : string :=
  Reference.dumps (VDict [("key", VStr "not-a-key");
                          ("payload", VStr (Reference.dumps (VDict [])))]).

End Visitors.

(** ** Properties of the rights filter *)

Lemma allowed_items_filter (items : list Item) :
  allowed_items items = List.filter (fun it => negb (is_draft it.2)) items.
Proof.
  induction items as [|it rest IH]; simpl; [done|].
  rewrite IH. done.
Qed.

Lemma allowed_items_In (items : list Item) (x : Item) :
  In x (allowed_items items) <-> In x items /\ is_draft x.2 = false.
Proof.
  rewrite allowed_items_filter, filter_In, negb_true_iff. done.
Qed.

(** C1: for a viewer without edit rights the filtered list holds exactly the
    records of the input whose [is_draft] is false, in their original order,
    so no draft ever appears; for a viewer with edit rights the list is
    returned unchanged. *)
Theorem apply_rights_spec (s : Session) (items : list Item) :
  (AnnouncementsRights.can_edit s = false ->
     apply_rights s items = List.filter (fun it => negb (is_draft it.2)) items
     /\ (forall x, In x (apply_rights s items)
                   <-> In x items /\ is_draft x.2 = false)
     /\ Forall (fun x => is_draft x.2 = false) (apply_rights s items))
  /\ (AnnouncementsRights.can_edit s = true -> apply_rights s items = items).
Proof.
  unfold apply_rights. split; intros ->.
  - split; [apply allowed_items_filter|]. split.
    + intros x. apply allowed_items_In.
    + apply List.Forall_forall. intros x Hx.
      by apply allowed_items_In in Hx as [_ ?].
  - done.
Qed.

Lemma apply_rights_spec_witness :
  apply_rights Reference.student Reference.two_items
    = [(1%positive, mkAnnouncement "Example Announcement" (mkDate 2012 10 6)
                      "Certificates will be e-mailed." false)]
  /\ apply_rights Reference.admin Reference.two_items = Reference.two_items.
Proof.
  split.
  - destruct (apply_rights_spec Reference.student Reference.two_items) as [H _].
    destruct (H eq_refl) as [-> _]. reflexivity.
  - apply (apply_rights_spec Reference.admin). reflexivity.
Defined.

(** ** Dates as text *)

Lemma digit_val_char (c : ascii) (n : N) :
  digit_val c = Some n -> (n < 10)%N /\ digit_char n = c.
Proof.
  unfold digit_val, digit_char. intros H.
  destruct ((48 <=? N_of_ascii c)%N && (N_of_ascii c <=? 57)%N) eqn:E; [|done].
  injection H as <-.
  apply andb_true_iff in E as [E1 E2].
  apply N.leb_le in E1, E2. split; [lia|].
  replace (48 + (N_of_ascii c - 48))%N with (N_of_ascii c) by lia.
  apply ascii_N_embedding.
Qed.

Lemma digits4 (a b c d : N) :
  (a < 10 -> b < 10 -> c < 10 -> d < 10 ->
   let y := 1000 * a + 100 * b + 10 * c + d in
   y / 1000 mod 10 = a /\ y / 100 mod 10 = b /\ y / 10 mod 10 = c /\ y mod 10 = d)%N.
Proof.
  intros Ha Hb Hc Hd y. subst y.
  rewrite <- (N.div_unique _ 1000 a (100 * b + 10 * c + d)) by lia.
  rewrite <- (N.div_unique _ 100 (10 * a + b) (10 * c + d)) by lia.
  rewrite <- (N.div_unique _ 10 (100 * a + 10 * b + c) d) by lia.
  repeat split; symmetry.
  - apply (N.mod_unique _ 10 0); lia.
  - apply (N.mod_unique _ 10 a); lia.
  - apply (N.mod_unique _ 10 (10 * a + b)); lia.
  - apply (N.mod_unique _ 10 (100 * a + 10 * b + c)); lia.
Qed.

Lemma digits2 (a b : N) :
  (a < 10 -> b < 10 ->
   (10 * a + b) / 10 mod 10 = a /\ (10 * a + b) mod 10 = b)%N.
Proof.
  intros Ha Hb.
  rewrite <- (N.div_unique _ 10 a b) by lia.
  split; symmetry.
  - apply (N.mod_unique _ 10 0); lia.
  - apply (N.mod_unique _ 10 a); lia.
Qed.

Lemma format_parse_date (s : string) (d : Date) :
  parse_date s = Some d -> format_date d = s.
Proof.
  unfold parse_date. intros H.
  repeat (match type of H with
          | match ?x with _ => _ end = _ => destruct x; try discriminate H
          end).
  repeat (match type of H with
          | context [digit_val ?c] =>
              let E := fresh "E" in
              destruct (digit_val c) eqn:E; simpl in H; [|discriminate H];
              apply digit_val_char in E as [? <-]
          end).
  destruct (valid_date _); [|discriminate H].
  injection H as <-. unfold format_date. cbn [year month day].
  match goal with
  | |- context [(1000 * ?a + 100 * ?b + 10 * ?c + ?d)%N] =>
      destruct (digits4 a b c d) as (-> & -> & -> & ->); try done
  end.
  repeat match goal with
  | |- context [((10 * ?a + ?b) mod 10)%N] =>
      destruct (digits2 a b) as (-> & ->); try done
  end.
Qed.

(** ** The date order *)

Lemma date_leb_total (a b : Date) : date_leb a b = true \/ date_leb b a = true.
Proof.
  unfold date_leb. destruct a as [ya ma da], b as [yb mb db]. simpl.
  destruct (N.ltb_spec ya yb), (N.ltb_spec yb ya), (N.eqb_spec ya yb),
    (N.eqb_spec yb ya), (N.ltb_spec ma mb), (N.ltb_spec mb ma),
    (N.eqb_spec ma mb), (N.eqb_spec mb ma), (N.leb_spec da db),
    (N.leb_spec db da); simpl; auto; lia.
Qed.

Global Instance date_desc_total : Total date_desc.
Proof. intros a b. unfold date_desc. destruct (date_leb_total (date b.2) (date a.2)); auto. Qed.

(** ** The handlers *)

Section Properties.
Context {P : Platform}.

Lemma entity_get_bad_key (encoded : string) (ds : Datastore) :
  decode_key encoded = None ->
  AnnouncementEntity_get (VStr encoded) ds = (Raise BadKeyError, ds).
Proof. intros H. unfold AnnouncementEntity_get. by rewrite H. Qed.

Lemma entity_get_decoded (encoded : string) (k : Key) (ds : Datastore) :
  decode_key encoded = Some k ->
  AnnouncementEntity_get (VStr encoded) ds
  = (Ok (pair k <$> rows ds !! k),
     mkDatastore (rows ds) (calls ds ++ [DbGet k])).
Proof. intros H. unfold AnnouncementEntity_get. by rewrite H. Qed.

Lemma send_json_response_payload (status : Z) (message : string)
    (payload : list (string * Val)) :
  payload <> [] ->
  send_json_response status message (VDict payload)
  = json_dumps (envelope_with_payload status message payload).
Proof.
  intros H. unfold send_json_response, json_envelope, envelope_with_payload.
  destruct payload; [done|reflexivity].
Qed.

Lemma send_json_response_none (status : Z) (message : string) :
  send_json_response status message VNone
  = json_dumps (envelope_without_payload status message).
Proof. reflexivity. Qed.

Lemma entity_payload (it : Item) :
  dict_to_json (entity_to_dict it) SCHEMA_DICT = payload_fields it.2.
Proof. reflexivity. Qed.

(** C3: REST GET answers a key that is malformed, or that names no stored
    record, with the envelope [{404, "Object not found.", payload {key}}];
    it answers a key that names a stored record with
    [{200, "Success."}] and the record's schema fields as payload. *)
Theorem rest_get_envelope (s : Session) (r : Request) (ds : Datastore) :
  ((decode_key (request_get r "key") = None
    \/ exists k, decode_key (request_get r "key") = Some k
                 /\ rows ds !! k = None) ->
   (ItemRESTHandler_get s r ds).1
   = Ok (RespWrite (json_dumps (envelope_with_payload 404 "Object not found."
                                  [("key", VStr (request_get r "key"))]))))
  /\ (forall k e,
        decode_key (request_get r "key") = Some k ->
        rows ds !! k = Some e ->
        (ItemRESTHandler_get s r ds).1
        = Ok (RespWrite (json_dumps (envelope_with_payload 200 "Success."
                                       (payload_fields e))))).
Proof.
  unfold ItemRESTHandler_get, bind, try_except, ret. split.
  - intros [Hbad | (k & Hk & Hnone)].
    + rewrite (entity_get_bad_key _ _ Hbad). simpl.
      by rewrite send_json_response_payload.
    + rewrite (entity_get_decoded _ _ _ Hk). simpl. rewrite Hnone. simpl.
      by rewrite send_json_response_payload.
  - intros k e Hk He.
    rewrite (entity_get_decoded _ _ _ Hk). simpl. rewrite He. reflexivity.
Qed.

(** What REST PUT does for a viewer without edit rights, case by case on
    the decoded request. *)
Lemma rest_put_non_editor (s : Session) (r : Request) (ds : Datastore) :
  AnnouncementsRights.can_edit s = false ->
  ItemRESTHandler_put s r ds
  = match json_loads (request_get r "request") with
    | None => (Raise ValueError, ds)
    | Some (VDict fields) =>
        (Ok (RespWrite (json_dumps (envelope_with_payload 401 "Access denied."
                          [("key", dict_get_default "key" fields)]))), ds)
    | Some _ => (Raise AttributeError, ds)
    end.
Proof.
  intros Hcan. unfold ItemRESTHandler_put, bind, py_json_loads, py_get.
  destruct (json_loads (request_get r "request")) as [[]|]; simpl; try done.
  by rewrite Hcan.
Qed.

(** C2 (amended): a REST PUT by a viewer without edit rights never changes
    the datastore, and when its [request] field decodes to a JSON object the
    answer is the envelope [{401, "Access denied.", payload {key}}]. *)
Theorem rest_put_denied (s : Session) (r : Request) (ds : Datastore) :
  AnnouncementsRights.can_edit s = false ->
  (ItemRESTHandler_put s r ds).2 = ds
  /\ (forall fields,
        json_loads (request_get r "request") = Some (VDict fields) ->
        (ItemRESTHandler_put s r ds).1
        = Ok (RespWrite (json_dumps (envelope_with_payload 401 "Access denied."
                           [("key", dict_get_default "key" fields)])))).
Proof.
  intros Hcan. rewrite (rest_put_non_editor _ _ _ Hcan). split.
  - by destruct (json_loads (request_get r "request")) as [[]|].
  - by intros fields ->.
Qed.

(** C10 (amended): for a viewer without edit rights REST PUT makes no
    datastore call at all (rows and call log are untouched), its outcome does
    not depend on the stored records, any answer it gives is the 401 envelope
    (never 404), and it does give that answer whenever the [request] field
    decodes to a JSON object, whatever the key in it. *)
Theorem rest_put_rights_before_lookup (s : Session) (r : Request)
    (ds : Datastore) :
  AnnouncementsRights.can_edit s = false ->
  (ItemRESTHandler_put s r ds).2 = ds
  /\ (forall ds', (ItemRESTHandler_put s r ds').1 = (ItemRESTHandler_put s r ds).1)
  /\ (forall resp,
        (ItemRESTHandler_put s r ds).1 = Ok resp ->
        exists key,
          resp = RespWrite (json_dumps (envelope_with_payload 401 "Access denied."
                                          [("key", key)])))
  /\ (forall fields,
        json_loads (request_get r "request") = Some (VDict fields) ->
        exists key,
          (ItemRESTHandler_put s r ds).1
          = Ok (RespWrite (json_dumps (envelope_with_payload 401 "Access denied."
                                         [("key", key)])))).
Proof.
  intros Hcan. rewrite (rest_put_non_editor _ _ _ Hcan).
  split; [|split; [|split]].
  - by destruct (json_loads (request_get r "request")) as [[]|].
  - intros ds'. rewrite (rest_put_non_editor _ _ _ Hcan).
    by destruct (json_loads (request_get r "request")) as [[]|].
  - intros resp.
    destruct (json_loads (request_get r "request")) as [[]|]; simpl; try done.
    intros [= <-]. eauto.
  - intros fields ->. eauto.
Qed.

Lemma json_envelope_fields (status : Z) (message : string) (payload_dict : Val) :
  dict_get "status" (json_envelope status message payload_dict)
  = Some (VNum status)
  /\ dict_get "message" (json_envelope status message payload_dict)
     = Some (VStr message)
  /\ dict_get "payload" (json_envelope status message payload_dict)
     = if truthy payload_dict then Some (VStr (json_dumps payload_dict))
       else None.
Proof. unfold json_envelope. by destruct (truthy payload_dict). Qed.

Lemma rest_get_writes_envelope (s : Session) (r : Request) (ds : Datastore)
    (resp : Response) :
  (ItemRESTHandler_get s r ds).1 = Ok resp ->
  exists status message payload,
    resp = RespWrite (json_dumps (envelope_with_payload status message payload)).
Proof.
  unfold ItemRESTHandler_get, bind, try_except, AnnouncementEntity_get,
    record_call, ret, raise.
  intros H. repeat case_match; simplify_eq/=; eauto.
Qed.

Lemma rest_put_writes_envelope (s : Session) (r : Request) (ds : Datastore)
    (resp : Response) :
  (ItemRESTHandler_put s r ds).1 = Ok resp ->
  exists status message,
    resp = RespWrite (json_dumps (envelope_without_payload status message))
    \/ exists payload,
        resp = RespWrite (json_dumps (envelope_with_payload status message payload)).
Proof.
  unfold ItemRESTHandler_put, bind, py_json_loads, py_get, lift_result,
    AnnouncementEntity_get, put_existing, record_call, ret, raise.
  intros H. repeat case_match; simplify_eq/=; eauto 6.
Qed.

(** C9: the dictionary that [send_json_response] serializes holds the status
    as a number and the message as a string, and holds a payload exactly when
    the payload dictionary is non-empty: then the entry is the JSON text of
    that dictionary, a string, not the dictionary itself.  Every answer of
    the REST handlers is such an envelope. *)
Theorem rest_envelope_shape :
  (forall status message payload_dict,
      send_json_response status message payload_dict
      = json_dumps (VDict (json_envelope status message payload_dict))
      /\ dict_get "status" (json_envelope status message payload_dict)
         = Some (VNum status)
      /\ dict_get "message" (json_envelope status message payload_dict)
         = Some (VStr message)
      /\ dict_get "payload" (json_envelope status message payload_dict)
         = if truthy payload_dict then Some (VStr (json_dumps payload_dict))
           else None)
  /\ (forall s r ds resp,
        (ItemRESTHandler_get s r ds).1 = Ok resp
        \/ (ItemRESTHandler_put s r ds).1 = Ok resp ->
        exists status message,
          resp = RespWrite (json_dumps (envelope_without_payload status message))
          \/ exists payload,
              resp = RespWrite
                       (json_dumps (envelope_with_payload status message payload))).
Proof.
  split.
  - intros status message payload_dict. split; [reflexivity|].
    apply json_envelope_fields.
  - intros s r ds resp [H | H].
    + apply rest_get_writes_envelope in H as (status & message & payload & ->).
      eauto.
    + by apply rest_put_writes_envelope in H.
Qed.

(** C4: an editor's REST PUT that writes the four schema fields to an
    existing record stores exactly these fields, and a REST GET on the same
    key then answers [{200, "Success."}] with a payload that holds the same
    four fields, the date as the text that was written. *)
Theorem rest_put_then_get (s s' : Session) (r r' : Request) (ds : Datastore)
    (request_fields written : list (string * Val))
    (key payload_text t date_text h : string) (b : bool) (d : Date)
    (k : Key) (e0 : AnnouncementEntity) :
  AnnouncementsRights.can_edit s = true ->
  json_loads (request_get r "request") = Some (VDict request_fields) ->
  dict_get "key" request_fields = Some (VStr key) ->
  dict_get "payload" request_fields = Some (VStr payload_text) ->
  json_loads payload_text = Some (VDict written) ->
  dict_get "title" written = Some (VStr t) ->
  dict_get "date" written = Some (VStr date_text) ->
  parse_date date_text = Some d ->
  dict_get "html" written = Some (VStr h) ->
  dict_get "isDraft" written = Some (VBool b) ->
  decode_key key = Some k ->
  rows ds !! k = Some e0 ->
  request_get r' "key" = key ->
  exists ds1 ds2,
    ItemRESTHandler_put s r ds
    = (Ok (RespWrite (json_dumps (envelope_without_payload 200 "Saved."))), ds1)
    /\ rows ds1 = <[k := mkAnnouncement t d h b]> (rows ds)
    /\ ItemRESTHandler_get s' r' ds1
       = (Ok (RespWrite (json_dumps (envelope_with_payload 200 "Success."
                [("title", VStr t); ("date", VStr date_text);
                 ("html", VStr h); ("isDraft", VBool b)]))), ds2)
    /\ rows ds2 = rows ds1.
Proof.
  intros Hcan Hreq Hkey Hpayload Hwritten Ht Hd Hparse Hh Hb Hk He0 Hkey'.
  pose proof (format_parse_date _ _ Hparse) as Hformat.
  eexists _, _. split; [|split; [|split]].
  - unfold ItemRESTHandler_put, bind, py_json_loads, py_get, dict_get_default.
    rewrite Hreq. simpl. rewrite Hkey, Hcan. simpl.
    rewrite (entity_get_decoded _ _ _ Hk). simpl. rewrite He0. simpl.
    rewrite Hpayload. simpl. rewrite Hwritten. simpl.
    rewrite Ht, Hd, Hh, Hb. simpl. rewrite Hparse. simpl.
    reflexivity.
  - reflexivity.
  - unfold ItemRESTHandler_get, bind, try_except. rewrite Hkey'.
    rewrite (entity_get_decoded _ _ _ Hk). simpl.
    rewrite lookup_insert_eq. simpl.
    unfold send_json_response, envelope_with_payload. simpl.
    rewrite Hformat. reflexivity.
  - reflexivity.
Qed.

(** *** Deleting *)

Lemma post_delete_decoded (s : Session) (r : Request) (ds : Datastore)
    (k : Key) :
  AnnouncementsRights.can_delete s = true ->
  decode_key (request_get r "key") = Some k ->
  post_delete s r ds
  = (Ok (RespRedirect "/announcements"),
     match rows ds !! k with
     | Some _ => mkDatastore (delete k (rows ds))
                   (calls ds ++ [DbGet k; DbDelete k])
     | None => mkDatastore (rows ds) (calls ds ++ [DbGet k])
     end).
Proof.
  intros Hcan Hk. unfold post_delete, bind. rewrite Hcan. simpl.
  rewrite (entity_get_decoded _ _ _ Hk). simpl.
  destruct (rows ds !! k); simpl; [|done].
  unfold entity_delete. simpl. by rewrite <- app_assoc.
Qed.

(** For a key that decodes, deletion behaves as the claim C5 says: an absent
    record is a silent no-op, a stored record is gone afterwards, and both
    redirect to the list. *)
Lemma post_delete_well_formed (s : Session) (r : Request) (ds : Datastore)
    (k : Key) :
  AnnouncementsRights.can_delete s = true ->
  decode_key (request_get r "key") = Some k ->
  (post_delete s r ds).1 = Ok (RespRedirect "/announcements")
  /\ rows (post_delete s r ds).2 !! k = None
  /\ (forall k', k' <> k ->
        rows (post_delete s r ds).2 !! k' = rows ds !! k')
  /\ (rows ds !! k = None -> rows (post_delete s r ds).2 = rows ds).
Proof.
  intros Hcan Hk. rewrite (post_delete_decoded _ _ _ _ Hcan Hk). simpl.
  destruct (rows ds !! k) eqn:E; simpl.
  - split; [done|]. split; [apply lookup_delete_eq|]. split; [|done].
    intros k' Hne. by apply lookup_delete_ne.
  - done.
Qed.

(** C5 (the code at the failing input): when the [key] argument is not an
    encoded datastore key, [post_delete] by a viewer with delete rights does
    not redirect: the BadKeyError raised by the lookup is not caught. *)
Theorem post_delete_malformed_key (s : Session) (r : Request) (ds : Datastore) :
  AnnouncementsRights.can_delete s = true ->
  decode_key (request_get r "key") = None ->
  post_delete s r ds = (Raise BadKeyError, ds).
Proof.
  intros Hcan Hk. unfold post_delete, bind. rewrite Hcan. simpl.
  by rewrite (entity_get_bad_key _ _ Hk).
Qed.

(** *** Dispatch *)

Lemma not_in_get_actions (a : string) :
  a ∉ get_actions -> bool_decide (a ∈ get_actions) = false.
Proof. intros H. by apply bool_decide_eq_false. Qed.

(** C6 (amended): on GET a missing or empty [action] runs the list handler
    and a non-empty action outside [{list, edit}] gives 404; on POST a missing
    action, or one outside [{add, delete}], gives 404.  The four actions
    themselves reach their handlers. *)
Theorem action_dispatch (s : Session) (r : Request) (ds : Datastore) :
  (params r !! "action" = None \/ params r !! "action" = Some "" ->
   AnnouncementsHandler_get s r ds = get_list s r ds)
  /\ (forall a, params r !! "action" = Some a -> a <> "" ->
        a ∉ ["list"; "edit"] ->
        AnnouncementsHandler_get s r ds = (Ok (RespError 404), ds))
  /\ (params r !! "action" = None
      \/ (exists a, params r !! "action" = Some a /\ a ∉ ["add"; "delete"]) ->
      AnnouncementsHandler_post s r ds = (Ok (RespError 404), ds))
  /\ (params r !! "action" = Some "list" ->
      AnnouncementsHandler_get s r ds = get_list s r ds)
  /\ (params r !! "action" = Some "edit" ->
      AnnouncementsHandler_get s r ds = get_edit s r ds)
  /\ (params r !! "action" = Some "add" ->
      AnnouncementsHandler_post s r ds = post_add s r ds)
  /\ (params r !! "action" = Some "delete" ->
      AnnouncementsHandler_post s r ds = post_delete s r ds).
Proof.
  unfold AnnouncementsHandler_get, AnnouncementsHandler_post, request_get.
  repeat split.
  - by intros [-> | ->].
  - intros a -> Hne Hout. simpl.
    destruct (String.eqb_spec a ""); [done|].
    by rewrite not_in_get_actions.
  - intros [-> | (a & -> & Hout)]; [done|]. simpl.
    destruct (String.eqb a ""); [done|]. simpl.
    rewrite (bool_decide_eq_false_2 _ Hout). done.
  - by intros ->.
  - by intros ->.
  - by intros ->.
  - by intros ->.
Qed.

(** *** Adding *)

(** C7: [post_add] by a viewer with add rights stores one new record, a
    draft with the placeholder title and body and today's date, under the
    key the datastore allocates, and redirects to the edit view of that
    key; looking the key up afterwards gives this record, and no other
    record has changed. *)
Theorem post_add_creates_draft (s : Session) (r : Request) (ds : Datastore) :
  AnnouncementsRights.can_add s = true ->
  rows ds !! alloc_key (rows ds) = None ->
  let k := alloc_key (rows ds) in
  let e := mkAnnouncement "Sample Announcement" (today s)
             "Here is my announcement!" true in
  post_add s r ds
  = (Ok (RespRedirect
           (canonicalize_url
              ("/announcements?"
               ++ urlencode [("action", "edit"); ("key", encode_key k)]))),
     mkDatastore (<[k := e]> (rows ds)) (calls ds ++ [DbPut k]))
  /\ is_draft e = true /\ title e <> "" /\ date e = today s
  /\ rows (post_add s r ds).2 !! k = Some e
  /\ (forall k', k' <> k -> rows (post_add s r ds).2 !! k' = rows ds !! k')
  /\ size (rows (post_add s r ds).2) = S (size (rows ds))
  /\ (forall encoded, decode_key encoded = Some k ->
        (AnnouncementEntity_get (VStr encoded) (post_add s r ds).2).1
        = Ok (Some (k, e))).
Proof.
  intros Hcan Hfresh k e.
  assert (Hrun : post_add s r ds
    = (Ok (RespRedirect
             (canonicalize_url
                ("/announcements?"
                 ++ urlencode [("action", "edit"); ("key", encode_key k)]))),
       mkDatastore (<[k := e]> (rows ds)) (calls ds ++ [DbPut k]))).
  { unfold post_add, bind. by rewrite Hcan. }
  rewrite Hrun. simpl. repeat split; try done.
  - apply lookup_insert_eq.
  - intros k' Hne. by apply lookup_insert_ne.
  - by apply map_size_insert_None.
  - intros encoded Hdec. rewrite (entity_get_decoded _ _ _ Hdec). simpl.
    by rewrite lookup_insert_eq.
Qed.

(** *** Listing and seeding *)

Lemma put_samples_spec (samples : list AnnouncementEntity) (ds : Datastore) :
  (forall m, m !! alloc_key m = None) ->
  exists items ds',
    put_samples samples ds = (Ok items, ds')
    /\ items.*2 = samples
    /\ calls ds' = (calls ds ++ (DbPut <$> items.*1))%list
    /\ map_to_list (rows ds') ≡ₚ (items ++ map_to_list (rows ds))%list.
Proof.
  intros Hfresh. revert ds.
  induction samples as [|e rest IH]; intros ds; simpl.
  - exists [], ds. unfold ret. simpl. by rewrite app_nil_r.
  - unfold bind, put_new. simpl.
    set (k := alloc_key (rows ds)).
    destruct (IH (mkDatastore (<[k := e]> (rows ds)) (calls ds ++ [DbPut k])))
      as (items & ds' & Hrun & Hsnd & Hcalls & Hperm).
    rewrite Hrun. simpl.
    exists ((k, e) :: items), ds'. split; [done|]. split; [by rewrite <- Hsnd|].
    split.
    + rewrite Hcalls. simpl. by rewrite <- app_assoc.
    + rewrite Hperm. simpl.
      rewrite (map_to_list_insert (rows ds) k e) by apply Hfresh.
      by rewrite Permutation_middle.
Qed.

Lemma fetch_run (limit : nat) (ds : Datastore) :
  fetch_by_date_desc limit ds
  = (Ok (take limit (merge_sort date_desc (map_to_list (rows ds)))),
     mkDatastore (rows ds) (calls ds ++ [DbQuery])).
Proof. reflexivity. Qed.

Lemma fetch_sorted (limit : nat) (m : gmap Key AnnouncementEntity) :
  let fetched := take limit (merge_sort date_desc (map_to_list m)) in
  length fetched <= limit
  /\ Sorted date_desc fetched
  /\ (forall it, it ∈ fetched -> m !! it.1 = Some it.2).
Proof.
  intros fetched. split; [|split].
  - subst fetched. rewrite length_take. lia.
  - subst fetched.
    pose proof (Sorted_merge_sort date_desc (map_to_list m)) as Hs.
    revert Hs. generalize (merge_sort date_desc (map_to_list m)). 
    intros l Hs. revert limit. induction Hs as [|x l Hl IH Hx]; intros [|n]; simpl; try constructor.
    + apply IH.
    + destruct Hx; destruct n; simpl; constructor. done.
  - intros [k e] Hin. subst fetched. apply elem_of_take in Hin as (i & Hin & _).
    apply list_elem_of_lookup_2 in Hin.
    rewrite merge_sort_Permutation in Hin.
    by apply elem_of_map_to_list in Hin.
Qed.

Lemma get_list_fetched (s : Session) (r : Request) (ds : Datastore) (u : string) :
  current_user s = Some u -> enrolled s = true ->
  take 1000 (merge_sort date_desc (map_to_list (rows ds))) <> [] ->
  get_list s r ds
  = (Ok (list_page s (take 1000 (merge_sort date_desc (map_to_list (rows ds))))),
     mkDatastore (rows ds) (calls ds ++ [DbQuery])).
Proof.
  intros Hu He Hne. unfold get_list. rewrite Hu, He. simpl.
  unfold bind at 1. rewrite fetch_run.
  destruct (take 1000 _) eqn:E; [done|]. reflexivity.
Qed.

Lemma get_list_seeding (s : Session) (r : Request) (ds : Datastore) (u : string) :
  current_user s = Some u -> enrolled s = true ->
  take 1000 (merge_sort date_desc (map_to_list (rows ds))) = [] ->
  get_list s r ds
  = match put_samples SAMPLE_ANNOUNCEMENTS
            (mkDatastore (rows ds) (calls ds ++ [DbQuery])) with
    | (Ok items, ds') => (Ok (list_page s items), ds')
    | (Raise e, ds') => (Raise e, ds')
    end.
Proof.
  intros Hu He Hnil. unfold get_list. rewrite Hu, He. simpl.
  unfold bind at 1. rewrite fetch_run. rewrite Hnil.
  unfold bind, put_sample_announcements.
  by destruct (put_samples _ _) as [[items|e] ds'].
Qed.

(** C8: for a signed-in, enrolled viewer [get_list] fetches at most 1000
    stored records, latest date first, and shows them without writing when
    there are any; on an empty store it stores the samples, once each, and
    shows them; every later call, whoever makes it, finds the same records,
    shows them all (sorted by date) and stores nothing more. *)
Theorem get_list_fetch_and_seed (s1 s2 : Session) (r1 r2 : Request)
    (ds : Datastore) (u1 u2 : string) :
  current_user s1 = Some u1 -> enrolled s1 = true ->
  current_user s2 = Some u2 -> enrolled s2 = true ->
  (forall m, m !! alloc_key m = None) ->
  length SAMPLE_ANNOUNCEMENTS <= 1000 ->
  (let fetched := take 1000 (merge_sort date_desc (map_to_list (rows ds))) in
   length fetched <= 1000
   /\ Sorted date_desc fetched
   /\ (forall it, it ∈ fetched -> rows ds !! it.1 = Some it.2)
   /\ (fetched <> [] ->
       get_list s1 r1 ds
       = (Ok (list_page s1 fetched),
          mkDatastore (rows ds) (calls ds ++ [DbQuery]))))
  /\ (rows ds = ∅ ->
      exists seeded ds1 shown,
        get_list s1 r1 ds = (Ok (list_page s1 seeded), ds1)
        /\ seeded.*2 = SAMPLE_ANNOUNCEMENTS
        /\ map_to_list (rows ds1) ≡ₚ seeded
        /\ calls ds1 = (calls ds ++ DbQuery :: (DbPut <$> seeded.*1))%list
        /\ shown ≡ₚ seeded
        /\ Sorted date_desc shown
        /\ (forall ds1', rows ds1' = rows ds1 ->
              get_list s2 r2 ds1'
              = (Ok (list_page s2 shown),
                 mkDatastore (rows ds1) (calls ds1' ++ [DbQuery])))).
Proof.
  intros Hu1 He1 Hu2 He2 Hfresh Hlen. split.
  - intros fetched.
    destruct (fetch_sorted 1000 (rows ds)) as (H1 & H2 & H3).
    repeat split; try done.
    intros Hne. by eapply get_list_fetched.
  - intros Hempty.
    destruct (put_samples_spec SAMPLE_ANNOUNCEMENTS
                (mkDatastore (rows ds) (calls ds ++ [DbQuery])) Hfresh)
      as (seeded & ds1 & Hrun & Hsnd & Hcalls & Hperm).
    simpl in Hcalls, Hperm. rewrite Hempty, map_to_list_empty, app_nil_r in Hperm.
    exists seeded, ds1, (merge_sort date_desc (map_to_list (rows ds1))).
    split; [|split; [done|split; [done|split; [|split; [|split]]]]].
    + rewrite (get_list_seeding _ _ _ _ Hu1 He1).
      * by rewrite Hrun.
      * by rewrite Hempty, map_to_list_empty.
    + rewrite Hcalls. by rewrite <- app_assoc.
    + by rewrite merge_sort_Permutation.
    + apply (Sorted_merge_sort date_desc).
    + intros ds1' Hrows.
      assert (Htake : take 1000 (merge_sort date_desc (map_to_list (rows ds1)))
                      = merge_sort date_desc (map_to_list (rows ds1))).
      { apply take_ge. rewrite merge_sort_Permutation, Hperm.
        rewrite <- Hsnd in Hlen. by rewrite length_fmap in Hlen. }
      destruct seeded as [|it seeded'].
      * apply Permutation_nil_r in Hperm.
        rewrite (get_list_seeding _ _ _ _ Hu2 He2);
          rewrite Hrows, Hperm; [|done].
        simpl in Hsnd. rewrite <- Hsnd. reflexivity.
      * rewrite (get_list_fetched _ _ _ _ Hu2 He2); rewrite Hrows, Htake.
        -- reflexivity.
        -- intros Hnil.
           assert (Hp : merge_sort date_desc (map_to_list (rows ds1))
                        ≡ₚ it :: seeded') by by rewrite merge_sort_Permutation.
           rewrite Hnil in Hp. by apply Permutation_nil_cons in Hp.
Qed.

End Properties.

Lemma rest_get_envelope_witness :
  (ItemRESTHandler_get (P:=Reference.platform) Reference.student
     (Reference.request_of [("key", "not-a-key")]) Reference.seeded_store).1
  = Ok (RespWrite (Reference.dumps
          (envelope_with_payload (P:=Reference.platform) 404 "Object not found."
             [("key", VStr "not-a-key")])))
  /\ (ItemRESTHandler_get (P:=Reference.platform) Reference.student
        (Reference.request_of [("key", "1")]) Reference.seeded_store).1
     = Ok (RespWrite (Reference.dumps
          (envelope_with_payload (P:=Reference.platform) 200 "Success."
             [("title", VStr "Example Announcement");
              ("date", VStr "2012-10-06");
              ("html", VStr "Certificates will be e-mailed.");
              ("isDraft", VBool false)]))).
Proof.
  split.
  - apply (rest_get_envelope (P:=Reference.platform) Reference.student
             (Reference.request_of [("key", "not-a-key")])
             Reference.seeded_store).
    left. reflexivity.
  - apply (proj2 (rest_get_envelope (P:=Reference.platform) Reference.student
                    (Reference.request_of [("key", "1")])
                    Reference.seeded_store)
             1%positive
             (mkAnnouncement "Example Announcement" (mkDate 2012 10 6)
                "Certificates will be e-mailed." false));
      vm_compute; reflexivity.
Defined.

Lemma rest_put_denied_counterexample :
  AnnouncementsRights.can_edit Reference.student = false
  /\ ItemRESTHandler_put (P:=Reference.platform) Reference.student
       (Reference.request_of [("request", "not json")]) Reference.seeded_store
     = (Raise ValueError, Reference.seeded_store)
  /\ ~ (exists key,
         (ItemRESTHandler_put (P:=Reference.platform) Reference.student
            (Reference.request_of [("request", "not json")])
            Reference.seeded_store).1
         = Ok (RespWrite (Reference.dumps
                 (envelope_with_payload (P:=Reference.platform) 401
                    "Access denied." [("key", key)])))).
Proof.
  split; [reflexivity|]. split; [reflexivity|].
  intros [key H]. discriminate H.
Qed.

Lemma rest_put_denied_witness :
  (ItemRESTHandler_put (P:=Reference.platform) Reference.student
     (Reference.request_of [("request", Reference.put_request_text)])
     Reference.seeded_store).2 = Reference.seeded_store
  /\ (ItemRESTHandler_put (P:=Reference.platform) Reference.student
        (Reference.request_of [("request", Reference.put_request_text)])
        Reference.seeded_store).1
     = Ok (RespWrite (Reference.dumps
             (envelope_with_payload (P:=Reference.platform) 401
                "Access denied." [("key", VStr "1")]))).
Proof.
  destruct (rest_put_denied (P:=Reference.platform) Reference.student
              (Reference.request_of [("request", Reference.put_request_text)])
              Reference.seeded_store eq_refl) as [Hds Hresp].
  split; [exact Hds|].
  apply (Hresp [("key", VStr "1");
                ("payload", VStr (Reference.dumps (VDict Reference.written_fields)))]).
  vm_compute. reflexivity.
Defined.

Lemma rest_put_rights_before_lookup_counterexample :
  AnnouncementsRights.can_edit Reference.student = false
  /\ ItemRESTHandler_put (P:=Reference.platform) Reference.student
       (Reference.request_of [("request", "[]")]) Reference.seeded_store
     = (Raise AttributeError, Reference.seeded_store)
  /\ ~ (exists key,
         (ItemRESTHandler_put (P:=Reference.platform) Reference.student
            (Reference.request_of [("request", "[]")])
            Reference.seeded_store).1
         = Ok (RespWrite (Reference.dumps
                 (envelope_with_payload (P:=Reference.platform) 401
                    "Access denied." [("key", key)])))).
Proof.
  split; [reflexivity|]. split; [reflexivity|].
  intros [key H]. discriminate H.
Qed.

Lemma rest_put_rights_before_lookup_witness :
  (ItemRESTHandler_put (P:=Reference.platform) Reference.student
     (Reference.request_of [("request", Reference.put_request_text)])
     Reference.seeded_store).2 = Reference.seeded_store
  /\ exists key,
       (ItemRESTHandler_put (P:=Reference.platform) Reference.student
          (Reference.request_of [("request", Reference.put_request_text)])
          Reference.seeded_store).1
       = Ok (RespWrite (Reference.dumps
               (envelope_with_payload (P:=Reference.platform) 401
                  "Access denied." [("key", key)]))).
Proof.
  destruct (rest_put_rights_before_lookup (P:=Reference.platform)
              Reference.student
              (Reference.request_of [("request", Reference.put_request_text)])
              Reference.seeded_store eq_refl) as (Hds & _ & _ & Hresp).
  split; [exact Hds|].
  apply (Hresp [("key", VStr "1");
                ("payload", VStr (Reference.dumps (VDict Reference.written_fields)))]).
  vm_compute. reflexivity.
Defined.

Lemma rest_envelope_shape_witness :
  exists status message,
    RespWrite (Reference.dumps
                 (envelope_with_payload (P:=Reference.platform) 404
                    "Object not found." [("key", VStr "7")]))
    = RespWrite (Reference.dumps
                   (envelope_without_payload status message))
    \/ exists payload,
        RespWrite (Reference.dumps
                     (envelope_with_payload (P:=Reference.platform) 404
                        "Object not found." [("key", VStr "7")]))
        = RespWrite (Reference.dumps
                       (envelope_with_payload (P:=Reference.platform)
                          status message payload)).
Proof.
  apply (proj2 (rest_envelope_shape (P:=Reference.platform))
           Reference.student (Reference.request_of [("key", "7")])
           Reference.seeded_store).
  left. vm_compute. reflexivity.
Defined.

Lemma rest_put_then_get_witness :
  exists ds1 ds2,
    ItemRESTHandler_put (P:=Reference.platform) Reference.admin
      (Reference.request_of [("request", Reference.put_request_text)])
      Reference.seeded_store
    = (Ok (RespWrite (Reference.dumps (envelope_without_payload 200 "Saved."))),
       ds1)
    /\ rows ds1 = <[1%positive := mkAnnouncement "X" (mkDate 2020 1 1) "Y" false]>
                    (rows Reference.seeded_store)
    /\ ItemRESTHandler_get (P:=Reference.platform) Reference.student
         (Reference.request_of [("key", "1")]) ds1
       = (Ok (RespWrite (Reference.dumps
                (envelope_with_payload (P:=Reference.platform) 200 "Success."
                   Reference.written_fields))), ds2)
    /\ rows ds2 = rows ds1.
Proof.
  apply (rest_put_then_get (P:=Reference.platform)
           Reference.admin Reference.student
           (Reference.request_of [("request", Reference.put_request_text)])
           (Reference.request_of [("key", "1")])
           Reference.seeded_store
           [("key", VStr "1");
            ("payload", VStr (Reference.dumps (VDict Reference.written_fields)))]
           Reference.written_fields
           "1" (Reference.dumps (VDict Reference.written_fields))
           "X" "2020-01-01" "Y" false (mkDate 2020 1 1) 1%positive
           (mkAnnouncement "Example Announcement" (mkDate 2012 10 6)
              "Certificates will be e-mailed." false));
    vm_compute; reflexivity.
Defined.

Lemma post_delete_malformed_key_witness :
  post_delete (P:=Reference.platform) Reference.admin
    (Reference.request_of [("action", "delete"); ("key", "not-a-key")])
    Reference.seeded_store
  = (Raise BadKeyError, Reference.seeded_store).
Proof.
  apply (post_delete_malformed_key (P:=Reference.platform)); reflexivity.
Defined.

Lemma action_dispatch_counterexample :
  params (Reference.request_of [("action", "")]) !! "action" = Some ""
  /\ ("" ∉ ["list"; "edit"])
  /\ AnnouncementsHandler_get (P:=Reference.platform) Reference.student
       (Reference.request_of [("action", "")]) Reference.seeded_store
     = get_list (P:=Reference.platform) Reference.student
         (Reference.request_of [("action", "")]) Reference.seeded_store
  /\ ~ ((AnnouncementsHandler_get (P:=Reference.platform) Reference.student
           (Reference.request_of [("action", "")]) Reference.seeded_store).1
        = Ok (RespError 404)).
Proof.
  split; [vm_compute; reflexivity|]. split.
  - intros H. repeat (apply elem_of_cons in H as [H|H]; [discriminate H|]).
    by apply elem_of_nil in H.
  - split; [reflexivity|]. vm_compute. discriminate.
Qed.

Lemma action_dispatch_witness :
  AnnouncementsHandler_get (P:=Reference.platform) Reference.student
    (Reference.request_of []) Reference.seeded_store
  = get_list (P:=Reference.platform) Reference.student
      (Reference.request_of []) Reference.seeded_store
  /\ AnnouncementsHandler_get (P:=Reference.platform) Reference.student
       (Reference.request_of [("action", "remove")]) Reference.seeded_store
     = (Ok (RespError 404), Reference.seeded_store)
  /\ AnnouncementsHandler_post (P:=Reference.platform) Reference.admin
       (Reference.request_of [("action", "edit")]) Reference.seeded_store
     = (Ok (RespError 404), Reference.seeded_store).
Proof.
  split; [|split].
  - apply (proj1 (action_dispatch (P:=Reference.platform) Reference.student
             (Reference.request_of []) Reference.seeded_store)).
    left. vm_compute. reflexivity.
  - apply (proj1 (proj2 (action_dispatch (P:=Reference.platform)
             Reference.student (Reference.request_of [("action", "remove")])
             Reference.seeded_store)) "remove").
    + vm_compute. reflexivity.
    + discriminate.
    + apply (bool_decide_eq_false_1 _). vm_compute. reflexivity.
  - apply (proj1 (proj2 (proj2 (action_dispatch (P:=Reference.platform)
             Reference.admin (Reference.request_of [("action", "edit")])
             Reference.seeded_store)))).
    right. exists "edit". split; [vm_compute; reflexivity|].
    apply (bool_decide_eq_false_1 _). vm_compute. reflexivity.
Defined.

Lemma post_add_creates_draft_witness :
  (post_add (P:=Reference.platform) Reference.admin
     (Reference.request_of [("action", "add")]) Reference.seeded_store).1
  = Ok (RespRedirect "/announcements?action=edit&key=3")
  /\ rows (post_add (P:=Reference.platform) Reference.admin
            (Reference.request_of [("action", "add")])
            Reference.seeded_store).2 !! 3%positive
     = Some (mkAnnouncement "Sample Announcement" (mkDate 2012 10 7)
               "Here is my announcement!" true).
Proof.
  assert (Hfresh : rows Reference.seeded_store
                     !! alloc_key (Platform:=Reference.platform)
                          (rows Reference.seeded_store) = None)
    by (vm_compute; reflexivity).
  destruct (post_add_creates_draft (P:=Reference.platform) Reference.admin
              (Reference.request_of [("action", "add")])
              Reference.seeded_store eq_refl Hfresh)
    as (Hrun & _ & _ & _ & Hlook & _).
  split.
  - rewrite Hrun. vm_compute. reflexivity.
  - exact Hlook.
Defined.

Lemma reference_alloc_fresh (m : gmap Key AnnouncementEntity) :
  m !! alloc_key (Platform:=Reference.platform) m = None.
Proof.
  change (m !! fresh (dom m) = None).
  apply (not_elem_of_dom m), is_fresh.
Qed.

Lemma get_list_fetch_and_seed_witness :
  exists seeded ds1 shown,
    get_list (P:=Reference.platform) Reference.student
      (Reference.request_of []) Reference.empty_store
    = (Ok (list_page (P:=Reference.platform) Reference.student seeded), ds1)
    /\ seeded.*2 = Reference.samples
    /\ map_to_list (rows ds1) ≡ₚ seeded
    /\ calls ds1
       = (calls Reference.empty_store ++ DbQuery :: (DbPut <$> seeded.*1))%list
    /\ shown ≡ₚ seeded
    /\ Sorted date_desc shown
    /\ (forall ds1', rows ds1' = rows ds1 ->
          get_list (P:=Reference.platform) Reference.admin
            (Reference.request_of []) ds1'
          = (Ok (list_page (P:=Reference.platform) Reference.admin shown),
             mkDatastore (rows ds1) (calls ds1' ++ [DbQuery]))).
Proof.
  apply (proj2 (get_list_fetch_and_seed (P:=Reference.platform)
                  Reference.student Reference.admin
                  (Reference.request_of []) (Reference.request_of [])
                  Reference.empty_store
                  "student@example.com" "admin@example.com"
                  eq_refl eq_refl eq_refl eq_refl reference_alloc_fresh
                  ltac:(vm_compute; lia))).
  reflexivity.
Defined.

(** On the reference platform the round trip can be read back from the
    wire: decoding the body of the GET answer, and then its payload, gives
    the fields that were written. *)
Example rest_round_trip_decoded :
  match ItemRESTHandler_put (P:=Reference.platform) Reference.admin
          (Reference.request_of [("request", Reference.put_request_text)])
          Reference.seeded_store with
  | (_, ds1) =>
      match ItemRESTHandler_get (P:=Reference.platform) Reference.student
              (Reference.request_of [("key", "1")]) ds1 with
      | (Ok (RespWrite body), _) =>
          envelope ← Reference.loads body;
          match envelope with
          | VDict fields =>
              match dict_get "payload" fields with
              | Some (VStr payload) => Reference.loads payload
              | _ => None
              end
          | _ => None
          end
      | _ => None
      end
  end = Some (VDict Reference.written_fields).
Proof. vm_compute. reflexivity. Qed.

(** ** Further properties of the handlers *)

Lemma date_leb_trans (a b c : Date) :
  date_leb a b = true -> date_leb b c = true -> date_leb a c = true.
Proof.
  unfold date_leb. destruct a as [ya ma da], b as [yb mb db], c as [yc mc dc].
  simpl.
  rewrite !orb_true_iff, !andb_true_iff, !orb_true_iff, !andb_true_iff.
  rewrite !N.ltb_lt, !N.eqb_eq, !N.leb_le. lia.
Qed.

Global Instance date_desc_trans : Transitive date_desc.
Proof. intros a b c Hab Hbc. unfold date_desc in *. by eapply date_leb_trans. Qed.

Lemma allowed_items_sorted (items : list Item) :
  Sorted date_desc items -> Sorted date_desc (allowed_items items).
Proof.
  intros Hs. apply StronglySorted_Sorted.
  apply (Sorted_StronglySorted date_desc) in Hs.
  induction Hs as [|it rest Hrest IH Hall]; simpl; [constructor|].
  destruct (is_draft it.2); simpl; [done|].
  constructor; [done|].
  rewrite allowed_items_filter. apply List.Forall_forall.
  intros x Hx. apply filter_In in Hx as [Hx _].
  rewrite List.Forall_forall in Hall. by apply Hall.
Qed.

Lemma allowed_items_idemp (items : list Item) :
  allowed_items (allowed_items items) = allowed_items items.
Proof.
  induction items as [|it rest IH]; simpl; [done|].
  destruct (is_draft it.2) eqn:E; simpl; [done|]. by rewrite E, IH.
Qed.

(** X14: the rights filter keeps the order of a list sorted by date
    (latest first), is idempotent, and never lengthens the list. *)
Theorem apply_rights_keeps_order (s : Session) (items : list Item) :
  (Sorted date_desc items -> Sorted date_desc (apply_rights s items))
  /\ apply_rights s (apply_rights s items) = apply_rights s items
  /\ length (apply_rights s items) <= length items.
Proof.
  unfold apply_rights. destruct (AnnouncementsRights.can_edit s).
  - done.
  - split; [apply allowed_items_sorted|]. split; [apply allowed_items_idemp|].
    rewrite allowed_items_filter. apply List.filter_length_le.
Qed.

Lemma fetched_nil (m : gmap Key AnnouncementEntity) :
  take 1000 (merge_sort date_desc (map_to_list m)) = [] <-> m = ∅.
Proof.
  split.
  - intros H. apply map_to_list_empty_iff.
    apply Permutation_nil_r. rewrite <- (merge_sort_Permutation date_desc).
    by destruct (merge_sort date_desc (map_to_list m)).
  - intros ->. by rewrite map_to_list_empty.
Qed.

Section MoreProperties.
Context {P : Platform}.

Lemma dispatch_get_cases (s : Session) (r : Request) (ds : Datastore) :
  AnnouncementsHandler_get s r ds = (Ok (RespError 404), ds)
  \/ AnnouncementsHandler_get s r ds = get_list s r ds
  \/ AnnouncementsHandler_get s r ds = get_edit s r ds.
Proof.
  unfold AnnouncementsHandler_get.
  set (action := if String.eqb (request_get r "action") ""
                 then default_action else request_get r "action").
  destruct (bool_decide (action ∈ get_actions)) eqn:E; [|by left].
  apply bool_decide_eq_true in E. right.
  apply elem_of_cons in E as [-> | E].
  - by left.
  - apply list_elem_of_singleton in E as ->. by right.
Qed.

Lemma dispatch_post_cases (s : Session) (r : Request) (ds : Datastore) :
  AnnouncementsHandler_post s r ds = (Ok (RespError 404), ds)
  \/ AnnouncementsHandler_post s r ds = post_add s r ds
  \/ AnnouncementsHandler_post s r ds = post_delete s r ds.
Proof.
  unfold AnnouncementsHandler_post.
  destruct (String.eqb (request_get r "action") ""); [by left|].
  destruct (bool_decide (request_get r "action" ∈ post_actions)) eqn:E;
    [|by left].
  apply bool_decide_eq_true in E. right.
  apply elem_of_cons in E as [-> | E].
  - by left.
  - apply list_elem_of_singleton in E as ->. by right.
Qed.

Lemma get_list_rows_kept (s : Session) (r : Request) (ds : Datastore)
    (k : Key) (e : AnnouncementEntity) :
  (forall m, m !! alloc_key m = None) ->
  rows ds !! k = Some e ->
  rows (get_list s r ds).2 !! k = Some e.
Proof.
  intros Hfresh Hk.
  destruct (current_user s) as [u|] eqn:Hu;
    [destruct (enrolled s) eqn:He|].
  - destruct (decide (rows ds = ∅)) as [Hempty | Hne].
    + rewrite Hempty in Hk. by rewrite lookup_empty in Hk.
    + rewrite (get_list_fetched _ _ _ _ Hu He); [done|].
      intros H. by apply fetched_nil in H.
  - unfold get_list. by rewrite Hu, He.
  - unfold get_list. by rewrite Hu.
Qed.

(** X1: a POST by a viewer who is not an administrator never reaches the
    datastore: whatever the action and the key, the datastore is exactly as
    before, and the answer is 401 for [add] and [delete] and 404 for any
    other action. *)
Theorem post_requires_admin (s : Session) (r : Request) (ds : Datastore) :
  is_current_user_admin s = false ->
  AnnouncementsHandler_post s r ds
  = (Ok (RespError (if bool_decide (request_get r "action" ∈ post_actions)
                    then 401 else 404)), ds).
Proof.
  intros Hadmin. unfold AnnouncementsHandler_post.
  destruct (bool_decide (request_get r "action" ∈ post_actions)) eqn:E.
  - apply bool_decide_eq_true in E.
    assert (Hcase : request_get r "action" = "add"
                    \/ request_get r "action" = "delete").
    { apply elem_of_cons in E as [E | E]; [by left|].
      apply list_elem_of_singleton in E. by right. }
    destruct Hcase as [-> | ->]; cbn.
    + change (dispatch _ s r ds) with (post_add s r ds).
      unfold post_add, AnnouncementsRights.can_add, AnnouncementsRights.can_edit.
      by rewrite Hadmin.
    + change (dispatch _ s r ds) with (post_delete s r ds).
      unfold post_delete, AnnouncementsRights.can_delete,
        AnnouncementsRights.can_edit.
      by rewrite Hadmin.
  - by rewrite orb_true_r.
Qed.

(** X2: [?action=edit] never looks the key up: the datastore is untouched
    whoever asks and whatever the key is; a viewer without edit rights gets
    401, an editor gets the editor page for the key as given, with the REST
    URL and an exit URL anchored at the quoted key. *)
Theorem get_edit_without_lookup (s : Session) (r : Request) (ds : Datastore) :
  params r !! "action" = Some "edit" ->
  (AnnouncementsHandler_get s r ds).2 = ds
  /\ (is_current_user_admin s = false ->
      (AnnouncementsHandler_get s r ds).1 = Ok (RespError 401))
  /\ (is_current_user_admin s = true ->
      (AnnouncementsHandler_get s r ds).1
      = Ok (RespRender "bare.html"
              [("navbar", VDict [("announcements", VBool true)]);
               ("content",
                VStr (get_html_for SCHEMA_JSON SCHEMA_ANNOTATIONS_DICT
                        (request_get r "key")
                        (canonicalize_url "/rest/announcements/item")
                        (canonicalize_url
                           ("/announcements#" ++ url_quote (request_get r "key")))))])).
Proof.
  intros Haction.
  assert (Hrun : AnnouncementsHandler_get s r ds = get_edit s r ds).
  { unfold AnnouncementsHandler_get, request_get. by rewrite Haction. }
  rewrite Hrun. unfold get_edit, AnnouncementsRights.can_edit.
  by destruct (is_current_user_admin s).
Qed.

(** X3: [get_list] does nothing for strangers: a visitor who is not signed
    in is redirected to the login URL of the request's URI, a signed-in
    visitor who is not enrolled to [/preview]; in both cases the datastore is
    neither queried nor seeded. *)
Theorem get_list_redirects_strangers (s : Session) (r : Request) (ds : Datastore) :
  (current_user s = None ->
   get_list s r ds = (Ok (RespRedirect (create_login_url (uri r))), ds))
  /\ (forall u, current_user s = Some u -> enrolled s = false ->
      get_list s r ds = (Ok (RespRedirect "/preview"), ds)).
Proof.
  unfold get_list. split.
  - by intros ->.
  - by intros u -> ->.
Qed.


(** X5: what the list page holds for a viewer without edit rights: one
    dictionary per non-draft item, in the order of the items, each just the
    record's own dictionary, and no [add_action]. *)
Theorem list_page_for_non_editor (s : Session) (items : list Item) :
  is_current_user_admin s = false ->
  format_items_for_template s (apply_rights s items)
  = VDict [("children",
            VList ((fun it => VDict (entity_to_dict it))
                   <$> List.filter (fun it => negb (is_draft it.2)) items))].
Proof.
  intros Hadmin.
  unfold format_items_for_template, apply_rights, AnnouncementsRights.can_edit.
  rewrite Hadmin, allowed_items_filter. do 4 f_equal.
  apply list_fmap_ext. intros i it _.
  unfold format_item, AnnouncementsRights.can_edit. by rewrite Hadmin.
Qed.

(** X6: what the list page holds for an editor: every item, drafts
    included, in order; each record's dictionary keeps its own entries and
    gains the edit and delete URLs of its own key; and the page has the
    [add_action] URL. *)
Theorem list_page_for_editor (s : Session) (items : list Item) :
  is_current_user_admin s = true ->
  format_items_for_template s (apply_rights s items)
  = VDict [("children",
            VList ((fun it =>
                      VDict (entity_to_dict it
                             ++ [("edit_action",
                                  VStr (get_action_url "edit"
                                          (KeyStr (encode_key it.1))));
                                 ("delete_action",
                                  VStr (get_action_url "delete"
                                          (KeyStr (encode_key it.1))))]))
                   <$> items));
           ("add_action", VStr (get_action_url "add" NoKey))].
Proof.
  intros Hadmin.
  unfold format_items_for_template, apply_rights, AnnouncementsRights.can_edit.
  rewrite Hadmin. cbn. do 4 f_equal.
  apply list_fmap_ext. intros i it _.
  unfold format_item, AnnouncementsRights.can_edit. by rewrite Hadmin.
Qed.

(** X7: on any store, [put_sample_announcements] stores one record per
    sample, in the order of the samples, under pairwise distinct keys that
    were unused before; it changes no record that was there, the store grows
    by the number of samples, and it makes one put per sample. *)
Theorem put_sample_announcements_adds_samples (ds : Datastore) :
  (forall m, m !! alloc_key m = None) ->
  exists items ds',
    put_sample_announcements ds = (Ok items, ds')
    /\ items.*2 = SAMPLE_ANNOUNCEMENTS
    /\ NoDup items.*1
    /\ (forall it, it ∈ items ->
          rows ds !! it.1 = None /\ rows ds' !! it.1 = Some it.2)
    /\ (forall k e, rows ds !! k = Some e -> rows ds' !! k = Some e)
    /\ size (rows ds') = size (rows ds) + length SAMPLE_ANNOUNCEMENTS
    /\ calls ds' = (calls ds ++ (DbPut <$> items.*1))%list.
Proof.
  intros Hfresh. unfold put_sample_announcements.
  destruct (put_samples_spec SAMPLE_ANNOUNCEMENTS ds Hfresh)
    as (items & ds' & Hrun & Hsnd & Hcalls & Hperm).
  exists items, ds'. split; [done|]. split; [done|].
  assert (Hnd : NoDup (items.*1 ++ (map_to_list (rows ds)).*1)).
  { rewrite <- fmap_app, <- Hperm. apply NoDup_fst_map_to_list. }
  apply NoDup_app in Hnd as (Hnd1 & Hdisj & _).
  split; [done|]. split; [|split; [|split; [|done]]].
  - intros [k e] Hin. simpl. split.
    + destruct (rows ds !! k) as [e'|] eqn:E; [|done].
      exfalso. apply (Hdisj k).
      * apply list_elem_of_fmap. by exists (k, e).
      * apply list_elem_of_fmap. exists (k, e'). split; [done|].
        by apply elem_of_map_to_list.
    + apply elem_of_map_to_list. rewrite Hperm. apply elem_of_app. by left.
  - intros k e Hk. apply elem_of_map_to_list. rewrite Hperm.
    apply elem_of_app. right. by apply elem_of_map_to_list.
  - rewrite <- (length_map_to_list (rows ds')), <- (length_map_to_list (rows ds)).
    rewrite Hperm, length_app, <- Hsnd, length_fmap. apply Nat.add_comm.
Qed.

(** X8: [get_list] never fails and never changes or removes a stored
    record; on a store that is not empty it writes nothing at all and makes
    at most the one query. *)
Theorem get_list_keeps_records (s : Session) (r : Request) (ds : Datastore) :
  (forall m, m !! alloc_key m = None) ->
  (exists resp, (get_list s r ds).1 = Ok resp)
  /\ (forall k e, rows ds !! k = Some e ->
        rows (get_list s r ds).2 !! k = Some e)
  /\ (rows ds <> ∅ ->
      rows (get_list s r ds).2 = rows ds
      /\ (calls (get_list s r ds).2 = calls ds
          \/ calls (get_list s r ds).2 = (calls ds ++ [DbQuery])%list)).
Proof.
  intros Hfresh.
  destruct (current_user s) as [u|] eqn:Hu;
    [destruct (enrolled s) eqn:He|].
  - destruct (decide (rows ds = ∅)) as [Hempty | Hne].
    + rewrite (get_list_seeding _ _ _ _ Hu He) by by apply fetched_nil.
      destruct (put_samples_spec SAMPLE_ANNOUNCEMENTS
                  (mkDatastore (rows ds) (calls ds ++ [DbQuery])) Hfresh)
        as (items & ds' & Hrun & _ & _ & Hperm).
      rewrite Hrun. simpl. split; [eauto|]. split; [|done].
      intros k e Hk. apply elem_of_map_to_list. rewrite Hperm.
      apply elem_of_app. right. by apply elem_of_map_to_list.
    + rewrite (get_list_fetched _ _ _ _ Hu He)
        by (intros H; by apply fetched_nil in H).
      simpl. eauto 10.
  - unfold get_list. rewrite Hu, He. simpl. eauto 10.
  - unfold get_list. rewrite Hu. simpl. eauto 10.
Qed.

Lemma dict_get_default_str (name encoded : string) (d : list (string * Val)) :
  dict_get_default name d = VStr encoded -> dict_get name d = Some (VStr encoded).
Proof. unfold dict_get_default. destruct (dict_get name d); simpl; congruence. Qed.

(** Either REST PUT leaves every row as it was, or an editor addressed a
    stored record by its key and that one row was replaced. *)
Lemma rest_put_rows (s : Session) (r : Request) (ds : Datastore) :
  rows (ItemRESTHandler_put s r ds).2 = rows ds
  \/ exists fields encoded k e e',
       AnnouncementsRights.can_edit s = true
       /\ json_loads (request_get r "request") = Some (VDict fields)
       /\ dict_get "key" fields = Some (VStr encoded)
       /\ decode_key encoded = Some k
       /\ rows ds !! k = Some e
       /\ ItemRESTHandler_put s r ds
          = (Ok (RespWrite (json_dumps (envelope_without_payload 200 "Saved."))),
             mkDatastore (<[k := e']> (rows ds))
               (calls ds ++ [DbGet k; DbPut k])).
Proof.
  unfold ItemRESTHandler_put, bind, py_json_loads, py_get, lift_result,
    put_existing, ret, raise.
  destruct (json_loads (request_get r "request")) as [request|] eqn:Hreq;
    [|by left].
  destruct request as [ | | | | | |fields]; try by left.
  simpl. destruct (AnnouncementsRights.can_edit s) eqn:Hcan; [|by left].
  simpl. destruct (dict_get_default "key" fields) as [ | | |encoded| | | ] eqn:Hkey;
    try by left.
  apply dict_get_default_str in Hkey.
  destruct (decode_key encoded) as [k|] eqn:Hk.
  - rewrite (entity_get_decoded _ _ _ Hk). simpl.
    destruct (rows ds !! k) as [e|] eqn:He; simpl; [|by left].
    destruct (dict_get_default "payload" fields); simpl; try by left.
    destruct (json_loads s0); simpl; [|by left].
    destruct (json_to_dict v SCHEMA_DICT) as [d|]; simpl; [|by left].
    right. exists fields, encoded, k, e, (dict_to_entity e d).
    repeat split; try done. by rewrite <- app_assoc.
  - rewrite (entity_get_bad_key _ _ Hk). by left.
Qed.

(** X9: REST PUT never creates or removes a record, and a record differs
    afterwards only if the viewer has edit rights, the request named that
    record by its key, and the answer was [{200, "Saved."}]: nothing is
    written on any failing path. *)
Theorem rest_put_changes_only_its_record (s : Session) (r : Request)
    (ds : Datastore) :
  dom (rows (ItemRESTHandler_put s r ds).2) = dom (rows ds)
  /\ (forall k, rows (ItemRESTHandler_put s r ds).2 !! k <> rows ds !! k ->
        AnnouncementsRights.can_edit s = true
        /\ (ItemRESTHandler_put s r ds).1
           = Ok (RespWrite (json_dumps (envelope_without_payload 200 "Saved.")))
        /\ exists fields encoded,
             json_loads (request_get r "request") = Some (VDict fields)
             /\ dict_get "key" fields = Some (VStr encoded)
             /\ decode_key encoded = Some k).
Proof.
  destruct (rest_put_rows s r ds)
    as [Hsame | (fields & encoded & k & e & e' & Hcan & Hreq & Hkey & Hk & He & Hrun)].
  - rewrite Hsame. split; [done|]. intros k Hne. exfalso. by apply Hne.
  - rewrite Hrun. simpl. split.
    + apply dom_insert_lookup_L. by rewrite He.
    + intros k' Hne. destruct (decide (k = k')) as [<- | Hkk'].
      * eauto 10.
      * by rewrite lookup_insert_ne in Hne.
Qed.

(** X10: how an editor's REST PUT fails on the key: a key that is not an
    encoded datastore key raises BadKeyError, which is not caught (no
    envelope); a key that decodes but names no record is answered with the
    404 envelope after one lookup, and no row changes. *)
Theorem rest_put_editor_lookup_failures (s : Session) (r : Request)
    (ds : Datastore) (fields : list (string * Val)) (encoded : string) :
  AnnouncementsRights.can_edit s = true ->
  json_loads (request_get r "request") = Some (VDict fields) ->
  dict_get "key" fields = Some (VStr encoded) ->
  (decode_key encoded = None ->
   ItemRESTHandler_put s r ds = (Raise BadKeyError, ds))
  /\ (forall k, decode_key encoded = Some k -> rows ds !! k = None ->
      ItemRESTHandler_put s r ds
      = (Ok (RespWrite (json_dumps (envelope_with_payload 404 "Object not found."
                                      [("key", VStr encoded)]))),
         mkDatastore (rows ds) (calls ds ++ [DbGet k]))).
Proof.
  intros Hcan Hreq Hkey.
  unfold ItemRESTHandler_put, bind, py_json_loads, py_get, dict_get_default.
  rewrite Hreq. simpl. rewrite Hkey, Hcan. simpl. split.
  - intros Hk. by rewrite (entity_get_bad_key _ _ Hk).
  - intros k Hk Hnone. rewrite (entity_get_decoded _ _ _ Hk). simpl.
    by rewrite Hnone.
Qed.

Lemma post_add_run (s : Session) (r : Request) (ds : Datastore) :
  AnnouncementsRights.can_add s = true ->
  post_add s r ds
  = (Ok (RespRedirect (get_action_url "edit" (KeyObj (alloc_key (rows ds))))),
     mkDatastore
       (<[alloc_key (rows ds) :=
            mkAnnouncement "Sample Announcement" (today s)
              "Here is my announcement!" true]> (rows ds))
       (calls ds ++ [DbPut (alloc_key (rows ds))])).
Proof. intros Hcan. unfold post_add, bind. by rewrite Hcan. Qed.

(** X11: adding an announcement and then deleting it, by the key string of
    the new record, gives back the rows the store had before. *)
Theorem post_add_then_delete (s s' : Session) (r r' : Request) (ds : Datastore) :
  AnnouncementsRights.can_add s = true ->
  AnnouncementsRights.can_delete s' = true ->
  rows ds !! alloc_key (rows ds) = None ->
  decode_key (encode_key (alloc_key (rows ds))) = Some (alloc_key (rows ds)) ->
  request_get r' "key" = encode_key (alloc_key (rows ds)) ->
  (post_delete s' r' (post_add s r ds).2).1 = Ok (RespRedirect "/announcements")
  /\ rows (post_delete s' r' (post_add s r ds).2).2 = rows ds.
Proof.
  intros Hadd Hdel Hfresh Hcodec Hkey.
  rewrite (post_add_run _ _ _ Hadd). simpl.
  rewrite <- Hkey in Hcodec.
  rewrite (post_delete_decoded _ _ _ _ Hdel Hcodec). simpl.
  rewrite lookup_insert_eq. simpl. split; [done|].
  by apply delete_insert_id.
Qed.

(** X12: after [post_delete] on a key that decodes, a REST GET on the same
    key is answered with the 404 envelope, whether or not a record was
    stored under it. *)
Theorem post_delete_then_rest_get (s s' : Session) (r r' : Request)
    (ds : Datastore) (k : Key) :
  AnnouncementsRights.can_delete s = true ->
  decode_key (request_get r "key") = Some k ->
  request_get r' "key" = request_get r "key" ->
  (ItemRESTHandler_get s' r' (post_delete s r ds).2).1
  = Ok (RespWrite (json_dumps (envelope_with_payload 404 "Object not found."
                                 [("key", VStr (request_get r "key"))]))).
Proof.
  intros Hdel Hk Hkey.
  rewrite (post_delete_decoded _ _ _ _ Hdel Hk).
  unfold ItemRESTHandler_get, bind, try_except. rewrite Hkey.
  rewrite (entity_get_decoded _ _ _ Hk).
  destruct (rows ds !! k) eqn:He; simpl.
  - by rewrite lookup_delete_eq.
  - by rewrite He.
Qed.

(** X13: after [post_add], a REST GET by any viewer on the key string of
    the new record answers 200 with the placeholder title and body, today's
    date and [isDraft] true. *)
Theorem post_add_then_rest_get (s s' : Session) (r r' : Request)
    (ds : Datastore) :
  AnnouncementsRights.can_add s = true ->
  decode_key (encode_key (alloc_key (rows ds))) = Some (alloc_key (rows ds)) ->
  request_get r' "key" = encode_key (alloc_key (rows ds)) ->
  (ItemRESTHandler_get s' r' (post_add s r ds).2).1
  = Ok (RespWrite (json_dumps (envelope_with_payload 200 "Success."
          [("title", VStr "Sample Announcement");
           ("date", VStr (format_date (today s)));
           ("html", VStr "Here is my announcement!");
           ("isDraft", VBool true)]))).
Proof.
  intros Hadd Hcodec Hkey.
  rewrite (post_add_run _ _ _ Hadd). simpl.
  unfold ItemRESTHandler_get, bind, try_except. rewrite Hkey.
  rewrite (entity_get_decoded _ _ _ Hcodec). simpl.
  by rewrite lookup_insert_eq.
Qed.

(** X15: a viewer who is not an administrator cannot change or remove a
    stored announcement through any entry point of the module: after a GET
    or POST on the announcements handler, or a GET or PUT on the REST
    handler, every record that was stored is still stored, unchanged. *)
Theorem non_admin_keeps_records (s : Session) (r : Request) (ds : Datastore)
    (k : Key) (e : AnnouncementEntity) :
  is_current_user_admin s = false ->
  (forall m, m !! alloc_key m = None) ->
  rows ds !! k = Some e ->
  rows (AnnouncementsHandler_get s r ds).2 !! k = Some e
  /\ rows (AnnouncementsHandler_post s r ds).2 !! k = Some e
  /\ rows (ItemRESTHandler_get s r ds).2 !! k = Some e
  /\ rows (ItemRESTHandler_put s r ds).2 !! k = Some e.
Proof.
  intros Hadmin Hfresh Hk.
  assert (Hcan : AnnouncementsRights.can_edit s = false) by done.
  split; [|split; [|split]].
  - destruct (dispatch_get_cases s r ds) as [-> | [-> | ->]].
    + done.
    + by apply get_list_rows_kept.
    + unfold get_edit. by rewrite Hcan.
  - destruct (dispatch_post_cases s r ds) as [-> | [-> | ->]].
    + done.
    + unfold post_add, AnnouncementsRights.can_add. by rewrite Hcan.
    + unfold post_delete, AnnouncementsRights.can_delete. by rewrite Hcan.
  - unfold ItemRESTHandler_get, bind, try_except.
    destruct (decode_key (request_get r "key")) as [k'|] eqn:Hk'.
    + rewrite (entity_get_decoded _ _ _ Hk'). simpl.
      by destruct (rows ds !! k').
    + by rewrite (entity_get_bad_key _ _ Hk').
  - rewrite (rest_put_non_editor _ _ _ Hcan).
    by destruct (json_loads (request_get r "request")) as [[]|].
Qed.

End MoreProperties.

Lemma post_requires_admin_witness :
  AnnouncementsHandler_post (P:=Reference.platform) Reference.student
    (Reference.request_of [("action", "delete"); ("key", "1")])
    Reference.seeded_store
  = (Ok (RespError 401), Reference.seeded_store).
Proof.
  apply (post_requires_admin (P:=Reference.platform) Reference.student
           (Reference.request_of [("action", "delete"); ("key", "1")])
           Reference.seeded_store eq_refl).
Defined.

Lemma get_edit_without_lookup_witness :
  (AnnouncementsHandler_get (P:=Reference.platform) Reference.student
     (Reference.request_of [("action", "edit"); ("key", "not-a-key")])
     Reference.seeded_store).2 = Reference.seeded_store
  /\ (AnnouncementsHandler_get (P:=Reference.platform) Reference.student
        (Reference.request_of [("action", "edit"); ("key", "not-a-key")])
        Reference.seeded_store).1 = Ok (RespError 401).
Proof.
  assert (Haction : params (Reference.request_of
                              [("action", "edit"); ("key", "not-a-key")])
                      !! "action" = Some "edit") by (vm_compute; reflexivity).
  destruct (get_edit_without_lookup (P:=Reference.platform) Reference.student
              (Reference.request_of [("action", "edit"); ("key", "not-a-key")])
              Reference.seeded_store Haction) as (Hds & Hdenied & _).
  split; [exact Hds | exact (Hdenied eq_refl)].
Defined.

Lemma get_list_redirects_strangers_witness :
  get_list (P:=Reference.platform) Visitors.anonymous
    (Reference.request_of []) Reference.empty_store
  = (Ok (RespRedirect "/login?continue=/announcements"), Reference.empty_store)
  /\ get_list (P:=Reference.platform) Visitors.unenrolled
       (Reference.request_of []) Reference.empty_store
     = (Ok (RespRedirect "/preview"), Reference.empty_store).
Proof.
  split.
  - apply (proj1 (get_list_redirects_strangers (P:=Reference.platform)
                    Visitors.anonymous (Reference.request_of [])
                    Reference.empty_store)).
    reflexivity.
  - apply (proj2 (get_list_redirects_strangers (P:=Reference.platform)
                    Visitors.unenrolled (Reference.request_of [])
                    Reference.empty_store) "guest@example.com");
      reflexivity.
Defined.

Lemma list_page_for_non_editor_witness :
  format_items_for_template (P:=Reference.platform) Reference.student
    (apply_rights Reference.student Reference.two_items)
  = VDict [("children",
            VList [VDict [("key", VStr "1");
                          ("title", VStr "Example Announcement");
                          ("date", VDate (mkDate 2012 10 6));
                          ("html", VStr "Certificates will be e-mailed.");
                          ("isDraft", VBool false)]])].
Proof.
  rewrite (list_page_for_non_editor (P:=Reference.platform) Reference.student
             Reference.two_items eq_refl).
  reflexivity.
Defined.

Lemma list_page_for_editor_witness :
  format_items_for_template (P:=Reference.platform) Reference.admin
    (apply_rights Reference.admin
       [(1%positive, mkAnnouncement "Example Announcement" (mkDate 2012 10 6)
                       "Certificates will be e-mailed." false)])
  = VDict [("children",
            VList [VDict [("key", VStr "1");
                          ("title", VStr "Example Announcement");
                          ("date", VDate (mkDate 2012 10 6));
                          ("html", VStr "Certificates will be e-mailed.");
                          ("isDraft", VBool false);
                          ("edit_action",
                           VStr "/announcements?action=edit&key=1");
                          ("delete_action",
                           VStr "/announcements?action=delete&key=1")]]);
           ("add_action", VStr "/announcements?action=add")].
Proof.
  rewrite (list_page_for_editor (P:=Reference.platform) Reference.admin
             [(1%positive, mkAnnouncement "Example Announcement"
                             (mkDate 2012 10 6)
                             "Certificates will be e-mailed." false)] eq_refl).
  reflexivity.
Defined.

Lemma put_sample_announcements_adds_samples_witness :
  exists items ds',
    put_sample_announcements (P:=Reference.platform) Reference.seeded_store
    = (Ok items, ds')
    /\ items.*2 = Reference.samples
    /\ size (rows ds') = 4.
Proof.
  destruct (put_sample_announcements_adds_samples (P:=Reference.platform)
              Reference.seeded_store reference_alloc_fresh)
    as (items & ds' & Hrun & Hsnd & _ & _ & _ & Hsize & _).
  exists items, ds'. split; [exact Hrun|]. split; [exact Hsnd|].
  rewrite Hsize. reflexivity.
Defined.

Lemma seeded_store_not_empty : rows Reference.seeded_store <> ∅.
Proof.
  intros H. apply (f_equal (fun m => m !! 1%positive)) in H.
  vm_compute in H. discriminate H.
Qed.

Lemma get_list_keeps_records_witness :
  rows (get_list (P:=Reference.platform) Reference.student
          (Reference.request_of []) Reference.seeded_store).2
  = rows Reference.seeded_store.
Proof.
  destruct (get_list_keeps_records (P:=Reference.platform) Reference.student
              (Reference.request_of []) Reference.seeded_store
              reference_alloc_fresh) as (_ & _ & Hsame).
  exact (proj1 (Hsame seeded_store_not_empty)).
Defined.

Lemma rest_put_changes_only_its_record_witness :
  AnnouncementsRights.can_edit Reference.admin = true
  /\ (ItemRESTHandler_put (P:=Reference.platform) Reference.admin
        (Reference.request_of [("request", Reference.put_request_text)])
        Reference.seeded_store).1
     = Ok (RespWrite (Reference.dumps
             (envelope_without_payload 200 "Saved."))).
Proof.
  assert (Hne : rows (ItemRESTHandler_put (P:=Reference.platform)
                        Reference.admin
                        (Reference.request_of
                           [("request", Reference.put_request_text)])
                        Reference.seeded_store).2 !! 1%positive
                <> rows Reference.seeded_store !! 1%positive)
    by (vm_compute; discriminate).
  destruct (proj2 (rest_put_changes_only_its_record (P:=Reference.platform)
                     Reference.admin
                     (Reference.request_of
                        [("request", Reference.put_request_text)])
                     Reference.seeded_store) 1%positive Hne)
    as (Hcan & Hresp & _).
  split; [exact Hcan | exact Hresp].
Defined.

Lemma rest_put_editor_lookup_failures_witness :
  ItemRESTHandler_put (P:=Reference.platform) Reference.admin
    (Reference.request_of [("request", Visitors.bad_key_request_text)])
    Reference.seeded_store
  = (Raise BadKeyError, Reference.seeded_store).
Proof.
  apply (proj1 (rest_put_editor_lookup_failures (P:=Reference.platform)
                  Reference.admin
                  (Reference.request_of
                     [("request", Visitors.bad_key_request_text)])
                  Reference.seeded_store
                  [("key", VStr "not-a-key");
                   ("payload", VStr (Reference.dumps (VDict [])))]
                  "not-a-key" eq_refl
                  ltac:(vm_compute; reflexivity) eq_refl)).
  reflexivity.
Defined.

Lemma post_add_then_delete_witness :
  (post_delete (P:=Reference.platform) Reference.admin
     (Reference.request_of [("action", "delete"); ("key", "3")])
     (post_add (P:=Reference.platform) Reference.admin
        (Reference.request_of [("action", "add")])
        Reference.seeded_store).2).1
  = Ok (RespRedirect "/announcements")
  /\ rows (post_delete (P:=Reference.platform) Reference.admin
            (Reference.request_of [("action", "delete"); ("key", "3")])
            (post_add (P:=Reference.platform) Reference.admin
               (Reference.request_of [("action", "add")])
               Reference.seeded_store).2).2
     = rows Reference.seeded_store.
Proof.
  apply (post_add_then_delete (P:=Reference.platform)
           Reference.admin Reference.admin
           (Reference.request_of [("action", "add")])
           (Reference.request_of [("action", "delete"); ("key", "3")])
           Reference.seeded_store eq_refl eq_refl);
    vm_compute; reflexivity.
Defined.

Lemma post_delete_then_rest_get_witness :
  (ItemRESTHandler_get (P:=Reference.platform) Reference.student
     (Reference.request_of [("key", "1")])
     (post_delete (P:=Reference.platform) Reference.admin
        (Reference.request_of [("action", "delete"); ("key", "1")])
        Reference.seeded_store).2).1
  = Ok (RespWrite (Reference.dumps
          (envelope_with_payload (P:=Reference.platform) 404
             "Object not found." [("key", VStr "1")]))).
Proof.
  apply (post_delete_then_rest_get (P:=Reference.platform)
           Reference.admin Reference.student
           (Reference.request_of [("action", "delete"); ("key", "1")])
           (Reference.request_of [("key", "1")])
           Reference.seeded_store 1%positive eq_refl);
    vm_compute; reflexivity.
Defined.

Lemma post_add_then_rest_get_witness :
  (ItemRESTHandler_get (P:=Reference.platform) Reference.student
     (Reference.request_of [("key", "3")])
     (post_add (P:=Reference.platform) Reference.admin
        (Reference.request_of [("action", "add")])
        Reference.seeded_store).2).1
  = Ok (RespWrite (Reference.dumps
          (envelope_with_payload (P:=Reference.platform) 200 "Success."
             [("title", VStr "Sample Announcement");
              ("date", VStr "2012-10-07");
              ("html", VStr "Here is my announcement!");
              ("isDraft", VBool true)]))).
Proof.
  apply (post_add_then_rest_get (P:=Reference.platform)
           Reference.admin Reference.student
           (Reference.request_of [("action", "add")])
           (Reference.request_of [("key", "3")])
           Reference.seeded_store eq_refl);
    vm_compute; reflexivity.
Defined.

Lemma two_items_sorted : Sorted date_desc Reference.two_items.
Proof. repeat constructor. Qed.

Lemma apply_rights_keeps_order_witness :
  Sorted date_desc (apply_rights Reference.student Reference.two_items).
Proof.
  apply (proj1 (apply_rights_keeps_order Reference.student
                  Reference.two_items)).
  exact two_items_sorted.
Defined.

Lemma non_admin_keeps_records_witness :
  rows (AnnouncementsHandler_get (P:=Reference.platform) Reference.student
          (Reference.request_of []) Reference.seeded_store).2 !! 1%positive
  = Some (mkAnnouncement "Example Announcement" (mkDate 2012 10 6)
            "Certificates will be e-mailed." false)
  /\ rows (AnnouncementsHandler_post (P:=Reference.platform) Reference.student
             (Reference.request_of []) Reference.seeded_store).2 !! 1%positive
     = Some (mkAnnouncement "Example Announcement" (mkDate 2012 10 6)
               "Certificates will be e-mailed." false)
  /\ rows (ItemRESTHandler_get (P:=Reference.platform) Reference.student
             (Reference.request_of []) Reference.seeded_store).2 !! 1%positive
     = Some (mkAnnouncement "Example Announcement" (mkDate 2012 10 6)
               "Certificates will be e-mailed." false)
  /\ rows (ItemRESTHandler_put (P:=Reference.platform) Reference.student
             (Reference.request_of []) Reference.seeded_store).2 !! 1%positive
     = Some (mkAnnouncement "Example Announcement" (mkDate 2012 10 6)
               "Certificates will be e-mailed." false).
Proof.
  apply (non_admin_keeps_records (P:=Reference.platform) Reference.student
           (Reference.request_of []) Reference.seeded_store 1%positive
           (mkAnnouncement "Example Announcement" (mkDate 2012 10 6)
              "Certificates will be e-mailed." false)
           eq_refl reference_alloc_fresh).
  vm_compute. reflexivity.
Defined.
